(** * GitHub-Jira-Integration: the action's [main] (src/index.js)

    A shallow embedding of [main]: the key pattern and the two string
    methods it is used with, the template literals that build the link and
    the new pull-request body, and the control flow of the four modes over
    a small trace-and-halt monad.  The tracker client, the repository-host
    client, the webhook request and the regular-expression compiler of the
    runtime are collaborators: their answers are fields of a [World]. *)

From Stdlib Require Import Bool Arith ZArith List Ascii String Lia.
Import ListNotations.
Local Open Scope string_scope.

(** ** JavaScript strings

    A string is a sequence of code units; the code units that occur in the
    claims are below 256, so [ascii] stands for a code unit. *)

Module JsString.

Definition len (s : string) : Z := Z.of_nat (String.length s).

(** [s.slice(a, b)]: a negative index counts from the end, both indices
    are clamped to [0, len]. *)
Definition clamp (l i : Z) : Z :=
  if (i <? 0)%Z then Z.max (l + i) 0 else Z.min i l.

Definition slice (s : string) (a b : Z) : string :=
  let l := len s in
  let from := clamp l a in
  let to := clamp l b in
  substring (Z.to_nat from) (Z.to_nat (Z.max (to - from) 0)) s.

(** [s.slice(a)] *)
Definition sliceFrom (s : string) (a : Z) : string := slice s a (len s).

(** A string is truthy when it is not empty. *)
Definition truthy (s : string) : bool := negb (String.eqb s "").

(** [undefined] and [null] inside a template literal. *)
Definition showUndefined (v : option string) : string :=
  match v with Some s => s | None => "undefined" end.

Definition showNull (v : option string) : string :=
  match v with Some s => s | None => "null" end.

Definition truthyOpt (v : option string) : bool :=
  match v with Some s => truthy s | None => false end.

(** The line feed of a template literal. *)
Definition newline : string := String "010"%char "".

Definition lowerChar (c : ascii) : ascii :=
  let n := nat_of_ascii c in
  if ((65 <=? n) && (n <=? 90))%nat then ascii_of_nat (n + 32) else c.

Fixpoint toLowerCase (s : string) : string :=
  match s with
  | EmptyString => EmptyString
  | String c r => String (lowerChar c) (toLowerCase r)
  end.

End JsString.

(** ** Regular expressions

    The backtracking matcher of the language definition, for the part of
    the pattern syntax the program's own pattern is written in: a matcher
    takes the input, a state (end index and captures) and a continuation. *)

Module RegExp.

Inductive regex : Type :=
| Eps : regex
| Chr : ascii -> regex
| Dot : regex
| Cls : bool -> list (ascii * ascii) -> regex
| Seq : regex -> regex -> regex
| Alt : regex -> regex -> regex
| Star : regex -> regex
| Grp : nat -> regex -> regex.

(** [r+] *)
Definition Plus (r : regex) : regex := Seq r (Star r).

Record State : Type := mkState {
  endIndex : nat;
  captures : list (nat * (nat * nat))
}.

Definition inRange (c : ascii) (p : ascii * ascii) : bool :=
  ((nat_of_ascii (fst p) <=? nat_of_ascii c) && (nat_of_ascii c <=? nat_of_ascii (snd p)))%nat.

Definition inClass (neg : bool) (rs : list (ascii * ascii)) (c : ascii) : bool :=
  xorb neg (existsb (inRange c) rs).

(** [.] matches every code unit but a line terminator. *)
Definition isLineTerminator (c : ascii) : bool :=
  ((nat_of_ascii c =? 10) || (nat_of_ascii c =? 13))%nat.

Definition step (inp : list ascii) (p : ascii -> bool) (x : State)
    (k : State -> option State) : option State :=
  match nth_error inp (endIndex x) with
  | Some c => if p c then k (mkState (S (endIndex x)) (captures x)) else None
  | None => None
  end.

Definition orElse (a b : option State) : option State :=
  match a with Some y => Some y | None => b end.

Fixpoint matcher (r : regex) (inp : list ascii) (x : State)
    (k : State -> option State) {struct r} : option State :=
  match r with
  | Eps => k x
  | Chr c => step inp (Ascii.eqb c) x k
  | Dot => step inp (fun c => negb (isLineTerminator c)) x k
  | Cls neg rs => step inp (inClass neg rs) x k
  | Seq r1 r2 => matcher r1 inp x (fun y => matcher r2 inp y k)
  | Alt r1 r2 => orElse (matcher r1 inp x k) (matcher r2 inp x k)
  | Star r1 =>
      (fix loop (fuel : nat) (x : State) {struct fuel} : option State :=
         match fuel with
         | O => k x
         | S fuel' =>
             orElse
               (matcher r1 inp x
                  (fun y => if (endIndex x <? endIndex y)%nat then loop fuel' y else None))
               (k x)
         end) (S (List.length inp) - endIndex x) x
  | Grp n r1 =>
      matcher r1 inp x
        (fun y => k (mkState (endIndex y)
                       ((n, (endIndex x, endIndex y)) :: captures y)))
  end.

(** The leftmost start index at which the pattern matches. *)
Fixpoint scan (r : regex) (inp : list ascii) (fuel i : nat) : option (nat * State) :=
  match matcher r inp (mkState i []) Some with
  | Some y => Some (i, y)
  | None =>
      match fuel with
      | O => None
      | S fuel' => scan r inp fuel' (S i)
      end
  end.

Definition exec (r : regex) (s : string) : option (nat * State) :=
  scan r (list_ascii_of_string s) (String.length s) 0.

Fixpoint groups (r : regex) : list nat :=
  match r with
  | Seq a b | Alt a b => (groups a ++ groups b)%list
  | Star a => groups a
  | Grp n a => n :: groups a
  | _ => []
  end.

Fixpoint lookup (n : nat) (cs : list (nat * (nat * nat))) : option (nat * nat) :=
  match cs with
  | [] => None
  | (m, se) :: cs' => if (m =? n)%nat then Some se else lookup n cs'
  end.

Definition captured (s : string) (y : State) (n : nat) : option string :=
  match lookup n (captures y) with
  | Some (a, b) => Some (substring a (b - a) s)
  | None => None
  end.

(** [s.match(r)] for a pattern without the global flag: [null], or the
    array of the matched text followed by the groups ([undefined] for a
    group that took no part). *)
Definition match_ (s : string) (r : regex) : option (list (option string)) :=
  match exec r s with
  | Some (i, y) =>
      Some (Some (substring i (endIndex y - i) s) :: map (captured s y) (groups r))
  | None => None
  end.

(** [s.search(r)]: the index of the first match, or -1. *)
Definition search (s : string) (r : regex) : Z :=
  match exec r s with
  | Some (i, _) => Z.of_nat i
  | None => (-1)%Z
  end.

End RegExp.

Import RegExp.

(** ** The key pattern (index.js, line 30) *)

Definition letters : list (ascii * ascii) :=
  [("A"%char, "Z"%char); ("a"%char, "z"%char)].

Definition digit : regex := Cls false [("0"%char, "9"%char)].

(** [/[^A-Za-z].([A-Za-z]+-\d+)/] *)
Definition jiraTicketFormat : regex :=
  Seq (Cls true letters)
    (Seq Dot
       (Grp 1 (Seq (Plus (Cls false letters)) (Seq (Chr "-"%char) (Plus digit))))).

(** ** Collaborators and effects *)

(** A value that is a string or [undefined] ([null] for the body). *)
Definition value : Type := option string.

(** The outcome of an awaited call: fulfilled with a value, or rejected. *)
Inductive Res (A : Type) : Type :=
| Ok : A -> Res A
| Err : string -> Res A.
Arguments Ok {A} _.
Arguments Err {A} _.

(** What a run does to the outside, in order. *)
Inductive Call : Type :=
| CoreInfo (msg : string)
| CoreSetFailed (msg : string)
| OctokitGetPull (pull_number : Z)
| OctokitGetUser (username : string)
| Request (url : string) (issues : list value)
| GitUpdatePR (title body : value)
| JiraGetIssueSummary (key : value)
| JiraGetVersionIdByPrefix (version : string)
| JiraPutFixVersion (key : value) (versionId : string)
| JiraPostComment (key : value) (url : string)
| JiraGetUserIdByFuzzyName (name : value)
| JiraPostIssue (title : string) (userId : value)
| JiraGetSprints (state : string)
| JiraPostMoveIssuesToSprint (keys : list value) (sprintId : string)
| JiraIsMeCreatedIssue (key : value)
| JiraPostTransitIssue (key : value) (transition : string)
| JiraGetIssueReporterId (key : value)
| JiraPutAssignIssue (key : value) (userId : string).

(** The calls that change the pull request, the ticket or a third party. *)
Definition mutating (c : Call) : bool :=
  match c with
  | Request _ _ | GitUpdatePR _ _ | JiraPutFixVersion _ _ | JiraPostComment _ _
  | JiraPostIssue _ _ | JiraPostMoveIssuesToSprint _ _ | JiraPostTransitIssue _ _
  | JiraPutAssignIssue _ _ => true
  | _ => false
  end.

Record PullRequest : Type := mkPR {
  number : Z;
  title : string;
  body : value;
  head_ref : string;
  merged : bool;
  html_url : string
}.

(** The inputs of the action, as [core.getInput] returns them
    ([githubToken] and [component] only reach the clients' constructors). *)
Record Inputs : Type := mkInputs {
  in_webhook : string;
  in_host : string;
  in_email : string;
  in_token : string;
  in_project : string;
  in_transition : string;
  in_version : string;
  in_type : string;
  in_board : string;
  in_isOnlyTransition : string;
  in_isCreateIssue : string;
  in_otherAssignedTransition : string;
  in_isAssignToReporter : string;
  in_isOnlyAppendDesc : string;
  in_appendDescAfterRegex : string;
  in_isAddFixVersionOnMerge : string
}.

(** The event and the answers of the collaborators (services/github,
    services/jira, services/request, the runtime's pattern compiler). *)
Record World : Type := mkWorld {
  actor : string;
  pull_request : option PullRequest;
  getPull : Z -> Res value;
  getUser : string -> Res value;
  request : string -> list value -> Res unit;
  updatePR : value -> value -> Res unit;
  getIssueSummary : value -> Res value;
  getVersionIdByPrefix : string -> Res string;
  putFixVersion : value -> string -> Res unit;
  postComment : value -> string -> Res unit;
  getUserIdByFuzzyName : value -> Res value;
  postIssue : string -> value -> Res value;
  getSprints : string -> Res (list string);
  postMoveIssuesToSprint : list value -> string -> Res unit;
  isMeCreatedIssue : value -> Res bool;
  postTransitIssue : value -> string -> Res unit;
  getIssueReporterId : value -> Res string;
  putAssignIssue : value -> string -> Res unit;
  newRegExp : string -> Res regex
}.

(** A computation logs its calls and either returns, leaves the process
    ([process.exit]) or throws. *)
Inductive Halt : Type :=
| Exit (code : Z)
| Throw (e : string).

Definition M (A : Type) : Type := (list Call * (A + Halt))%type.

Definition ret {A} (a : A) : M A := ([], inl a).

Definition bind {A B} (m : M A) (f : A -> M B) : M B :=
  match snd m with
  | inl a => ((fst m ++ fst (f a))%list, snd (f a))
  | inr h => (fst m, inr h)
  end.

Definition exit {A} (code : Z) : M A := ([], inr (Exit code)).
Definition throw {A} (e : string) : M A := ([], inr (Throw e)).
Definition tell (c : Call) : M unit := ([c], inl tt).
Definition info (msg : string) : M unit := tell (CoreInfo msg).

Definition lift {A} (r : Res A) : M A :=
  match r with Ok a => ret a | Err e => throw e end.

(** [await] of a collaborator call: the call is logged, a rejection is
    thrown. *)
Definition await {A} (c : Call) (r : Res A) : M A :=
  bind (tell c) (fun _ => lift r).

(** [p.catch(h)] *)
Definition catch {A} (m : M A) (h : string -> M A) : M A :=
  match snd m with
  | inr (Throw e) => ((fst m ++ fst (h e))%list, snd (h e))
  | _ => m
  end.

Definition when (b : bool) (m : M unit) : M unit := if b then m else ret tt.

Declare Scope js_scope.
Delimit Scope js_scope with js.
Notation "x <- m ;; k" := (bind m (fun x => k))
  (at level 100, m at next level, right associativity) : js_scope.
Notation "m ;; k" := (bind m (fun _ => k))
  (at level 100, right associativity) : js_scope.

Import JsString.
Local Open Scope js_scope.

(** ** [main] (index.js, lines 10-217) *)

(** [core.getInput(name).toLowerCase() === 'true'] (lines 22-28) *)
Definition flag (s : string) : bool := String.eqb (toLowerCase s) "true".

Definition isOnlyTransition (i : Inputs) : bool := flag (in_isOnlyTransition i).
Definition isCreateIssue (i : Inputs) : bool := flag (in_isCreateIssue i).
Definition isAssignToReporter (i : Inputs) : bool := flag (in_isAssignToReporter i).
Definition isOnlyAppendDesc (i : Inputs) : bool := flag (in_isOnlyAppendDesc i).
Definition isAddFixVersionOnMerge (i : Inputs) : bool := flag (in_isAddFixVersionOnMerge i).

(** [s.match(jiraTicketFormat)] followed by [shift()] (lines 58-59, 64-65):
    [null], or the array of the groups. *)
Definition found (s : string) : option (list value) :=
  option_map (@tl value) (match_ s jiraTicketFormat).

(** [[key] = found] *)
Definition first (f : option (list value)) (key : value) : value :=
  match f with
  | Some l => hd None l
  | None => key
  end.

Definition isFound (f : option (list value)) : bool :=
  match f with Some _ => true | None => false end.

(** Lines 58-67: the key from the title, else from the branch. *)
Definition KeyResolver (latestPrTitle branch : string) : value :=
  let foundInTitle := found latestPrTitle in
  let key := first foundInTitle None in
  if negb (truthyOpt key) then first (found branch) key else key.

(** The link of the webhook branch (lines 97 and 103). *)
Definition linkBySummary (host : string) (key issueTitle : value) : string :=
  "[" ++ showUndefined key
      ++ (if truthyOpt issueTitle then ": " ++ showUndefined issueTitle else "")
      ++ "](" ++ host ++ "/browse/" ++ showUndefined key ++ ")".

(** The link of the append-only branch and of the shared tail (lines 138
    and 210). *)
Definition linkByTitle (host : string) (key : value)
    (foundInTitle : option (list value)) (issueTitle : value) : string :=
  "[" ++ showUndefined key
      ++ (if isFound foundInTitle then ": " ++ showUndefined issueTitle else "")
      ++ "](" ++ host ++ "/browse/" ++ showUndefined key ++ ")".

(** The body of lines 97, 103 and 210: the link, a newline, [pr.body]. *)
Definition prependLink (link : string) (prBody : value) : string :=
  link ++ newline ++ showNull prBody.

(** The new title of lines 102 and 212. *)
Definition TitleComposer (latestPrTitle : string) (key : value) : string :=
  latestPrTitle ++ " [" ++ showUndefined key ++ "]".

Definition nullError (method : string) : string :=
  "TypeError: Cannot read properties of null (reading '" ++ method ++ "')".

(** Lines 126-136: where the link goes. *)
Definition insertionPoint (w : World) (appendDescAfterRegex : string)
    (prBody : value) : Res (Z * Z) :=
  if truthy appendDescAfterRegex then
    match prBody with
    | None => Err (nullError "search")
    | Some b =>
        match newRegExp w appendDescAfterRegex with
        | Err e => Err e
        | Ok re =>
            let from := search b re in
            if (from =? -1)%Z then Ok (0%Z, 0%Z)
            else
              match match_ b re with
              | Some (Some word :: _) => Ok (from, len word)
              | _ => Err "TypeError: object null is not iterable"
              end
        end
    end
  else Ok (0%Z, 0%Z).

(** Lines 126-138: the body of the append-only branch. *)
Definition appendDesc (w : World) (appendDescAfterRegex : string)
    (prBody : value) (link : string) : Res string :=
  match insertionPoint w appendDescAfterRegex prBody with
  | Err e => Err e
  | Ok (from, length) =>
      match prBody with
      | None => Err (nullError "slice")
      | Some b =>
          Ok (slice b 0 (from + length)
                ++ (if (from =? 0)%Z then "" else " ")
                ++ link
                ++ (if (from =? 0)%Z then newline else "")
                ++ sliceFrom b (from + length))
      end
  end.

(** Lines 45-75: the event, the fresh title, the key and the summary. *)
Record Resolved : Type := mkResolved {
  pr : PullRequest;
  latestPrTitle : string;
  foundInTitle : option (list value);
  key : value;
  issueTitle : value
}.

(** Line 55: the fetched title when there is one, else the event's. *)
Definition freshTitle (latest : value) (pr : PullRequest) : string :=
  if truthyOpt latest then showUndefined latest else title pr.

(** Line 72: both credentials are configured. *)
Definition credentials (i : Inputs) : bool :=
  truthy (in_email i) && truthy (in_token i).

Definition resolve (i : Inputs) (w : World) : M Resolved :=
  pr <- match pull_request w with
        | Some pr => ret pr
        | None =>
            tell (CoreSetFailed "Only support pull request trigger") ;;
            throw "TypeError: Cannot read properties of undefined (reading 'number')"
        end ;;
  latest <- await (OctokitGetPull (number pr)) (getPull w (number pr)) ;;
  let latestPrTitle := freshTitle latest pr in
  let foundInTitle := found latestPrTitle in
  let key := KeyResolver latestPrTitle (head_ref pr) in
  issueTitle <-
    (if credentials i && truthyOpt key then
       info ("Detected jira issue in PR title/branch: " ++ showUndefined key) ;;
       await (JiraGetIssueSummary key) (getIssueSummary w key)
     else ret None) ;;
  ret (mkResolved pr latestPrTitle foundInTitle key issueTitle).

(** Lines 77-123: the webhook mode. *)
Definition webhookMode (i : Inputs) (w : World) (r : Resolved) : M unit :=
  when (negb (truthyOpt (key r)))
    (info "No jira issue detected in PR title/branch" ;; exit 0) ;;
  await (Request (in_webhook i) [key r]) (request w (in_webhook i) [key r]) ;;
  info "webhook complete" ;;
  when (merged (pr r))
    (when (isAddFixVersionOnMerge i)
       (versionId <- await (JiraGetVersionIdByPrefix (in_version i))
                       (getVersionIdByPrefix w (in_version i)) ;;
        await (JiraPutFixVersion (key r) versionId)
          (putFixVersion w (key r) versionId)) ;;
     exit 0) ;;
  let newBody :=
    Some (prependLink (linkBySummary (in_host i) (key r) (issueTitle r)) (body (pr r))) in
  let newTitle :=
    if isFound (foundInTitle r) then None
    else Some (TitleComposer (latestPrTitle r) (key r)) in
  await (GitUpdatePR newTitle newBody) (updatePR w newTitle newBody) ;;
  when (credentials i)
    (await (JiraPostComment (key r) (html_url (pr r)))
       (postComment w (key r) (html_url (pr r)))) ;;
  exit 0.

(** Lines 125-143: the append-only mode. *)
Definition appendDescMode (i : Inputs) (w : World) (r : Resolved) : M unit :=
  newBody <- lift (appendDesc w (in_appendDescAfterRegex i) (body (pr r))
                     (linkByTitle (in_host i) (key r) (foundInTitle r) (issueTitle r))) ;;
  await (GitUpdatePR None (Some newBody)) (updatePR w None (Some newBody)) ;;
  info "update PR description complete" ;;
  exit 0.

(** Lines 145-169: the creation of a ticket; returns the key and the
    summary the tail goes on with. *)
Definition createIssueMode (i : Inputs) (w : World) (r : Resolved) : M (value * value) :=
  when (negb (truthy (in_project i))) (throw "Error: Creating issue need project") ;;
  when (negb (truthy (in_type i))) (throw "Error: Creating issue need type") ;;
  (if isFound (foundInTitle r) || truthyOpt (key r) then
     info "Jira issue detected in PR title/branch" ;; exit 0
   else info "No jira issue detected in PR title/branch") ;;
  fullName <- await (OctokitGetUser (actor w)) (getUser w (actor w)) ;;
  userId <- catch (await (JiraGetUserIdByFuzzyName fullName) (getUserIdByFuzzyName w fullName))
              (fun e => info e ;; ret None) ;;
  newKey <- await (JiraPostIssue (latestPrTitle r) userId)
              (postIssue w (latestPrTitle r) userId) ;;
  when (truthy (in_board i))
    (sprints <- await (JiraGetSprints "active") (getSprints w "active") ;;
     match sprints with
     | activeSprintId :: _ =>
         await (JiraPostMoveIssuesToSprint [newKey] activeSprintId)
           (postMoveIssuesToSprint w [newKey] activeSprintId)
     | [] => throw "TypeError: Cannot read properties of undefined (reading 'id')"
     end) ;;
  ret (newKey, Some (latestPrTitle r)).

(** Lines 171-216: the shared tail. *)
Definition sharedTail (i : Inputs) (w : World) (r : Resolved)
    (key issueTitle : value) : M unit :=
  when (negb (truthyOpt key))
    (info "No jira issue detected in PR title/branch" ;; exit 0) ;;
  transition <-
    (if truthy (in_otherAssignedTransition i) then
       isMeCreatedIssue <- await (JiraIsMeCreatedIssue key) (isMeCreatedIssue w key) ;;
       ret (if negb isMeCreatedIssue then in_otherAssignedTransition i else in_transition i)
     else ret (in_transition i)) ;;
  when (truthy transition)
    (await (JiraPostTransitIssue key transition) (postTransitIssue w key transition)) ;;
  when (isOnlyTransition i) (info "transit completed" ;; exit 0) ;;
  when (isAssignToReporter i)
    (reporter <- await (JiraGetIssueReporterId key) (getIssueReporterId w key) ;;
     await (JiraPutAssignIssue key reporter) (putAssignIssue w key reporter)) ;;
  await (JiraPostComment key (html_url (pr r))) (postComment w key (html_url (pr r))) ;;
  let newBody :=
    Some (prependLink (linkByTitle (in_host i) key (foundInTitle r) issueTitle) (body (pr r))) in
  let newTitle :=
    if isCreateIssue i || negb (isFound (foundInTitle r))
    then Some (TitleComposer (latestPrTitle r) key) else None in
  await (GitUpdatePR newTitle newBody) (updatePR w newTitle newBody) ;;
  info "New issue created".

Definition main (i : Inputs) (w : World) : M unit :=
  r <- resolve i w ;;
  if truthy (in_webhook i) then webhookMode i w r
  else if isOnlyAppendDesc i then appendDescMode i w r
  else
    ki <- (if isCreateIssue i then createIssueMode i w r
           else ret (key r, issueTitle r)) ;;
    sharedTail i w r (fst ki) (snd ki).

(** Line 219: [main().catch(core.setFailed)], and how the process ends. *)
Inductive Outcome : Type :=
| Exited (code : Z)
| Completed
| Failed (e : string).

Definition run (i : Inputs) (w : World) : list Call * Outcome :=
  match main i w with
  | (t, inl _) => (t, Completed)
  | (t, inr (Exit c)) => (t, Exited c)
  | (t, inr (Throw e)) => ((t ++ [CoreSetFailed e])%list, Failed e)
  end.

(** ** What a run is observed to do *)

(** The key of lines 58-67 for the fetched title and the event. *)
Definition resolvedKey (latest : value) (p : PullRequest) : value :=
  KeyResolver (freshTitle latest p) (head_ref p).

(** The link of line 138 or 210 for what lines 45-75 resolved. *)
Definition resolvedLink (i : Inputs) (r : Resolved) : string :=
  linkByTitle (in_host i) (key r) (foundInTitle r) (issueTitle r).

(** The link of line 138 when no key was resolved. *)
Definition undefinedLink (i : Inputs) : string :=
  "[undefined](" ++ in_host i ++ "/browse/undefined)".

(** The log line of line 73. *)
Definition detected (k : value) : Call :=
  CoreInfo ("Detected jira issue in PR title/branch: " ++ showUndefined k).

(** The calls of lines 50-75 when the lookups answer. *)
Definition resolveCalls (i : Inputs) (p : PullRequest) (k : value) : list Call :=
  OctokitGetPull (number p)
    :: (if credentials i && truthyOpt k then [detected k; JiraGetIssueSummary k] else []).

(** The calls of a run that finds no key. *)
Definition noKeyCalls (p : PullRequest) : list Call :=
  [OctokitGetPull (number p); CoreInfo "No jira issue detected in PR title/branch"].

(** The calls of lines 88-91. *)
Definition fixVersionCalls (i : Inputs) (k : value) (v : string) : list Call :=
  if isAddFixVersionOnMerge i
  then [JiraGetVersionIdByPrefix (in_version i); JiraPutFixVersion k v] else [].

Definition updatesOrComments (c : Call) : bool :=
  match c with
  | GitUpdatePR _ _ | JiraPostComment _ _ => true
  | _ => false
  end.

Definition isUpdatePR (c : Call) : bool :=
  match c with GitUpdatePR _ _ => true | _ => false end.

Definition isPostIssue (c : Call) : bool :=
  match c with JiraPostIssue _ _ => true | _ => false end.

(** A ticket was created in the run. *)
Definition justCreated (calls : list Call) : bool := existsb isPostIssue calls.

Definition updates (calls : list Call) : list Call := filter isUpdatePR calls.

(** The collaborators of lines 72-75 and 145-216 answer: the lookup of the
    summary and every call the create-issue mode and the tail can make is
    fulfilled, the created ticket has a key,
    the board has an active sprint.  The lookup of the user by name is left
    free (line 158 goes on either way). *)
Record Answering (w : World) : Prop := mkAnswering {
  ans_getSummary : forall k, exists s, getIssueSummary w k = Ok s;
  ans_getUser : forall n, exists name, getUser w n = Ok name;
  ans_postIssue : forall t u, exists k, postIssue w t u = Ok k /\ truthyOpt k = true;
  ans_getSprints : exists id rest, getSprints w "active" = Ok (id :: rest);
  ans_postMove : forall ks id, postMoveIssuesToSprint w ks id = Ok tt;
  ans_isMe : forall k, exists me, isMeCreatedIssue w k = Ok me;
  ans_postTransit : forall k t, postTransitIssue w k t = Ok tt;
  ans_getReporter : forall k, exists reporter, getIssueReporterId w k = Ok reporter;
  ans_putAssign : forall k u, putAssignIssue w k u = Ok tt;
  ans_postComment : forall k u, postComment w k u = Ok tt;
  ans_updatePR : forall t b, updatePR w t b = Ok tt
}.

(** The create-issue mode has what it needs and no key yet; the default mode
    has a key. *)
Definition reachesTail (i : Inputs) (k : value) : Prop :=
  if isCreateIssue i
  then truthy (in_project i) = true /\ truthy (in_type i) = true /\ truthyOpt k = false
  else truthyOpt k = true.

(** ** Concrete events and collaborators *)

Module Sample.

Definition inputs : Inputs :=
  {| in_webhook := ""; in_host := "https://jira.example"; in_email := "";
     in_token := ""; in_project := ""; in_transition := ""; in_version := "";
     in_type := ""; in_board := ""; in_isOnlyTransition := "";
     in_isCreateIssue := ""; in_otherAssignedTransition := "";
     in_isAssignToReporter := ""; in_isOnlyAppendDesc := "";
     in_appendDescAfterRegex := ""; in_isAddFixVersionOnMerge := "" |}.

Definition withCredentials (i : Inputs) : Inputs :=
  {| in_webhook := in_webhook i; in_host := in_host i; in_email := "bot@example.com";
     in_token := "secret"; in_project := in_project i;
     in_transition := in_transition i; in_version := in_version i;
     in_type := in_type i; in_board := in_board i;
     in_isOnlyTransition := in_isOnlyTransition i;
     in_isCreateIssue := in_isCreateIssue i;
     in_otherAssignedTransition := in_otherAssignedTransition i;
     in_isAssignToReporter := in_isAssignToReporter i;
     in_isOnlyAppendDesc := in_isOnlyAppendDesc i;
     in_appendDescAfterRegex := in_appendDescAfterRegex i;
     in_isAddFixVersionOnMerge := in_isAddFixVersionOnMerge i |}.

Definition appendOnly (anchor : string) : Inputs :=
  {| in_webhook := ""; in_host := "https://jira.example"; in_email := "";
     in_token := ""; in_project := ""; in_transition := ""; in_version := "";
     in_type := ""; in_board := ""; in_isOnlyTransition := "";
     in_isCreateIssue := ""; in_otherAssignedTransition := "";
     in_isAssignToReporter := ""; in_isOnlyAppendDesc := "true";
     in_appendDescAfterRegex := anchor; in_isAddFixVersionOnMerge := "" |}.

Definition webhookOnMerge (addFixVersion : string) : Inputs :=
  {| in_webhook := "https://hooks.example/jira"; in_host := "https://jira.example";
     in_email := ""; in_token := ""; in_project := ""; in_transition := "";
     in_version := "2.1"; in_type := ""; in_board := ""; in_isOnlyTransition := "";
     in_isCreateIssue := ""; in_otherAssignedTransition := "";
     in_isAssignToReporter := ""; in_isOnlyAppendDesc := "";
     in_appendDescAfterRegex := ""; in_isAddFixVersionOnMerge := addFixVersion |}.

Definition createIssue : Inputs :=
  {| in_webhook := ""; in_host := "https://jira.example"; in_email := "";
     in_token := ""; in_project := "AB"; in_transition := ""; in_version := "";
     in_type := "Task"; in_board := ""; in_isOnlyTransition := "";
     in_isCreateIssue := "true"; in_otherAssignedTransition := "";
     in_isAssignToReporter := ""; in_isOnlyAppendDesc := "";
     in_appendDescAfterRegex := ""; in_isAddFixVersionOnMerge := "" |}.

Definition event (t : string) (b : value) (branch : string) (m : bool) : PullRequest :=
  {| number := 7; title := t; body := b; head_ref := branch; merged := m;
     html_url := "https://github.example/o/r/pull/7" |}.

Definition noKeyEvent : PullRequest :=
  event "Fix login bug" (Some "text") "feature/fix" false.

Definition lowercaseBranchEvent : PullRequest :=
  event "Fix login bug" (Some "text") "feature/ab-99-fix" false.

Definition keyedEvent (b : value) (m : bool) : PullRequest :=
  event "fix: AB-42 login" b "main" m.

Definition branchKeyedEvent : PullRequest :=
  event "login" (Some "text") "feature/1-AB-42" false.

Definition anchoredEvent : PullRequest :=
  event "Fix login bug" (Some "See Ticket: rest") "feature/fix" false.

Definition untitledEvent : PullRequest :=
  event "login" (Some "text") "main" false.

(** The anchor [Ticket:], as the runtime compiles it. *)
Definition ticketAnchor : regex :=
  Seq (Chr "T"%char) (Seq (Chr "i"%char) (Seq (Chr "c"%char) (Seq (Chr "k"%char)
    (Seq (Chr "e"%char) (Seq (Chr "t"%char) (Chr ":"%char)))))).

(** Every collaborator answers; the summary lookup answers [summary]. *)
Definition world (p : PullRequest) (summary : Res value) : World :=
  {| actor := "octocat";
     pull_request := Some p;
     getPull := fun _ => Ok (Some (title p));
     getUser := fun _ => Ok (Some "Mona Lisa");
     request := fun _ _ => Ok tt;
     updatePR := fun _ _ => Ok tt;
     getIssueSummary := fun _ => summary;
     getVersionIdByPrefix := fun _ => Ok "10042";
     putFixVersion := fun _ _ => Ok tt;
     postComment := fun _ _ => Ok tt;
     getUserIdByFuzzyName := fun _ => Ok (Some "u-1");
     postIssue := fun _ _ => Ok (Some "AB-100");
     getSprints := fun _ => Ok ["55"];
     postMoveIssuesToSprint := fun _ _ => Ok tt;
     isMeCreatedIssue := fun _ => Ok true;
     postTransitIssue := fun _ _ => Ok tt;
     getIssueReporterId := fun _ => Ok "u-2";
     putAssignIssue := fun _ _ => Ok tt;
     newRegExp := fun s =>
       if String.eqb s "Ticket:" then Ok ticketAnchor
       else Err "SyntaxError: Invalid regular expression" |}.

End Sample.

(** ** Further observations on a run *)

(** [issueTitle] after line 75 when the lookup, if made, answers [s]. *)
Definition fetchedSummary (i : Inputs) (k s : value) : value :=
  if credentials i && truthyOpt k then s else None.

(** The update of lines 95-105. *)
Definition webhookTitle (p : PullRequest) (latest : value) : option string :=
  if isFound (found (freshTitle latest p)) then None
  else Some (TitleComposer (freshTitle latest p) (resolvedKey latest p)).

Definition webhookBody (i : Inputs) (p : PullRequest) (latest s : value) : value :=
  Some (prependLink
          (linkBySummary (in_host i) (resolvedKey latest p)
             (fetchedSummary i (resolvedKey latest p) s))
          (body p)).

(** The comment of lines 107-120. *)
Definition webhookComment (i : Inputs) (p : PullRequest) (k : value) : list Call :=
  if credentials i then [JiraPostComment k (html_url p)] else [].

(** Lines 177-181: the transition the tail goes on with, given whether the
    ticket was created by the account of the action. *)
Definition TransitionPolicy (i : Inputs) (isMeCreatedIssue : bool) : string :=
  if truthy (in_otherAssignedTransition i)
  then (if negb isMeCreatedIssue then in_otherAssignedTransition i else in_transition i)
  else in_transition i.

(** The calls of lines 177-184 when the collaborators answer. *)
Definition transitionCalls (i : Inputs) (k : value) (isMe : bool) : list Call :=
  ((if truthy (in_otherAssignedTransition i) then [JiraIsMeCreatedIssue k] else [])
     ++ (if truthy (TransitionPolicy i isMe)
         then [JiraPostTransitIssue k (TransitionPolicy i isMe)] else []))%list.

(** The calls of lines 191-193 when the collaborators answer. *)
Definition assignCalls (i : Inputs) (k : value) (reporter : string) : list Call :=
  if isAssignToReporter i
  then [JiraGetIssueReporterId k; JiraPutAssignIssue k reporter] else [].

(** The update of lines 209-214 in the default mode. *)
Definition syncTitle (i : Inputs) (p : PullRequest) (latest : value) : option string :=
  if isCreateIssue i || negb (isFound (found (freshTitle latest p)))
  then Some (TitleComposer (freshTitle latest p) (resolvedKey latest p)) else None.

Definition syncBody (i : Inputs) (p : PullRequest) (latest s : value) : value :=
  Some (prependLink
          (linkByTitle (in_host i) (resolvedKey latest p) (found (freshTitle latest p))
             (fetchedSummary i (resolvedKey latest p) s))
          (body p)).

(** The calls a run of the webhook mode can make. *)
Definition webhookCall (c : Call) : bool :=
  match c with
  | CoreInfo _ | CoreSetFailed _ | OctokitGetPull _ | JiraGetIssueSummary _
  | Request _ _ | JiraGetVersionIdByPrefix _ | JiraPutFixVersion _ _
  | GitUpdatePR _ _ | JiraPostComment _ _ => true
  | _ => false
  end.

(** The calls a run of the append-only mode can make. *)
Definition appendOnlyCall (c : Call) : bool :=
  match c with
  | CoreInfo _ | CoreSetFailed _ | OctokitGetPull _ | JiraGetIssueSummary _
  | GitUpdatePR None (Some _) => true
  | _ => false
  end.

(** What the tail does after line 189. *)
Definition afterTransition (c : Call) : bool :=
  match c with
  | JiraGetIssueReporterId _ | JiraPutAssignIssue _ _ | JiraPostComment _ _
  | GitUpdatePR _ _ => true
  | _ => false
  end.

(** The error of lines 146-147, as line 219 reports the thrown [Error]. *)
Definition configError (i : Inputs) : string :=
  if truthy (in_project i) then "Error: Creating issue need type"
  else "Error: Creating issue need project".

Definition isLetter (c : ascii) : bool := inClass false letters c.
Definition isDigit (c : ascii) : bool := inClass false [("0"%char, "9"%char)] c.

(** Every call of a computation satisfies [P]. *)
Definition only (P : Call -> bool) {A} (m : M A) : Prop :=
  forallb P (fst m) = true.

(** A computation that leaves the process does so with code 0. *)
Definition leavesWithZero {A} (m : M A) : Prop :=
  forall c, snd m = inr (Exit c) -> c = 0%Z.

(** ** More events and collaborators *)

Module Scenario.

(** The create-issue mode, the flag written in capitals. *)
Definition create (project type board : string) : Inputs :=
  {| in_webhook := ""; in_host := "https://jira.example"; in_email := "bot@example.com";
     in_token := "secret"; in_project := project; in_transition := ""; in_version := "";
     in_type := type; in_board := board; in_isOnlyTransition := "";
     in_isCreateIssue := "TRUE"; in_otherAssignedTransition := "";
     in_isAssignToReporter := ""; in_isOnlyAppendDesc := "";
     in_appendDescAfterRegex := ""; in_isAddFixVersionOnMerge := "" |}.

(** The default mode with its transition and assignment inputs. *)
Definition sync (transition other onlyTransition assign : string) : Inputs :=
  {| in_webhook := ""; in_host := "https://jira.example"; in_email := "bot@example.com";
     in_token := "secret"; in_project := ""; in_transition := transition;
     in_version := ""; in_type := ""; in_board := "";
     in_isOnlyTransition := onlyTransition;
     in_isCreateIssue := ""; in_otherAssignedTransition := other;
     in_isAssignToReporter := assign; in_isOnlyAppendDesc := "";
     in_appendDescAfterRegex := ""; in_isAddFixVersionOnMerge := "" |}.

(** Collaborators that answer, but for the user lookup, the sprints and the
    creator of the ticket, which are given. *)
Definition world (p : option PullRequest) (fuzzy : Res value)
    (sprints : list string) (me : bool) : World :=
  {| actor := "octocat";
     pull_request := p;
     getPull := fun _ => Ok None;
     getUser := fun _ => Ok (Some "Mona Lisa");
     request := fun _ _ => Ok tt;
     updatePR := fun _ _ => Ok tt;
     getIssueSummary := fun _ => Ok (Some "Login bug");
     getVersionIdByPrefix := fun _ => Ok "10042";
     putFixVersion := fun _ _ => Ok tt;
     postComment := fun _ _ => Ok tt;
     getUserIdByFuzzyName := fun _ => fuzzy;
     postIssue := fun _ _ => Ok (Some "AB-100");
     getSprints := fun _ => Ok sprints;
     postMoveIssuesToSprint := fun _ _ => Ok tt;
     isMeCreatedIssue := fun _ => Ok me;
     postTransitIssue := fun _ _ => Ok tt;
     getIssueReporterId := fun _ => Ok "u-2";
     putAssignIssue := fun _ _ => Ok tt;
     newRegExp := fun _ => Err "SyntaxError: Invalid regular expression" |}.

(** What lines 45-75 resolve for an event without a key. *)
Definition unresolved (p : PullRequest) : Resolved :=
  mkResolved p (title p) None None None.

End Scenario.

(** ** Runs of characters in the input of the matcher *)

(** The code unit at index [j] satisfies [P]. *)
Definition charAt (inp : list ascii) (P : ascii -> bool) (j : nat) : Prop :=
  exists c, nth_error inp j = Some c /\ P c = true.

(** The [n] code units from index [a] on satisfy [P]. *)
Definition spanOf (inp : list ascii) (P : ascii -> bool) (a n : nat) : Prop :=
  forall j, (a <= j < a + n)%nat -> charAt inp P j.

(** The code units [[a, a + n)] of the input. *)
Definition piece (inp : list ascii) (a n : nat) : list ascii := firstn n (skipn a inp).

(** The pattern of line 30 matches at [p] with [S n1] letters and [S n2]
    digits in its group. *)
Definition keyAt (inp : list ascii) (p n1 n2 : nat) : Prop :=
  charAt inp (inClass true letters) p /\
  charAt inp (fun c => negb (isLineTerminator c)) (p + 1) /\
  spanOf inp isLetter (p + 2) (S n1) /\
  charAt inp (Ascii.eqb "-"%char) (p + 3 + n1) /\
  spanOf inp isDigit (p + 4 + n1) (S n2).

(** * Properties *)

(** One more answer of a collaborator on the path. *)
Ltac oracle :=
  match goal with
  | |- context [match ?x with Ok _ => _ | Err _ => _ end] => destruct x eqn:?; cbn
  end.

Ltac settled :=
  split; [reflexivity | first [left; reflexivity | right; repeat split; simpl; auto 10]].

(** The sprint list of line 166. *)
Ltac sprint :=
  match goal with
  | |- context [match ?l with [] => _ | _ :: _ => _ end] => destruct l; cbn
  end.

(** ** Strings *)

Section StringFacts.

Lemma substring_whole (s : string) : substring 0 (String.length s) s = s.
Proof.
  induction s as [|c s IH]; simpl; [reflexivity | now rewrite IH].
Qed.

Lemma substring_zero (s : string) : substring 0 0 s = "".
Proof. destruct s; reflexivity. Qed.

Lemma substring_empty (a n : nat) : substring a n "" = "".
Proof. destruct a, n; reflexivity. Qed.

Lemma substring_split (s : string) :
  forall n, (n <= String.length s)%nat ->
    substring 0 n s ++ substring n (String.length s - n) s = s.
Proof.
  induction s as [|c s IH]; intros [|n] Hn; simpl in *.
  - reflexivity.
  - lia.
  - now rewrite substring_whole.
  - f_equal.
    assert (E : forall m, substring (S n) m (String c s) = substring n m s)
      by (intros m; reflexivity).
    specialize (IH n ltac:(lia)).
    destruct (String.length s - n)%nat eqn:D; simpl; exact IH.
Qed.

Lemma substring_length (s : string) :
  forall a n, (a + n <= String.length s)%nat ->
    String.length (substring a n s) = n.
Proof.
  induction s as [|c s IH]; intros [|a] [|n] H; simpl in *; try lia; try reflexivity.
  - f_equal. apply IH. simpl. lia.
  - apply (IH a 0%nat). lia.
  - apply (IH a (S n)). lia.
Qed.

Lemma list_ascii_length (s : string) :
  List.length (list_ascii_of_string s) = String.length s.
Proof. induction s; simpl; congruence. Qed.

Lemma slice_prefix (s : string) (j : nat) :
  (j <= String.length s)%nat ->
  slice s 0 (Z.of_nat j) = substring 0 j s.
Proof.
  intros H. unfold slice, clamp, len.
  replace (0 <? 0)%Z with false by reflexivity.
  destruct (Z.of_nat j <? 0)%Z eqn:E; [apply Z.ltb_lt in E; lia|].
  rewrite (Z.min_l 0) by lia. rewrite Z.min_l by lia.
  rewrite Z.sub_0_r, Z.max_l by lia.
  now rewrite Nat2Z.id.
Qed.

Lemma slice_suffix (s : string) (j : nat) :
  (j <= String.length s)%nat ->
  sliceFrom s (Z.of_nat j) = substring j (String.length s - j) s.
Proof.
  intros H. unfold sliceFrom, slice, clamp, len.
  destruct (Z.of_nat j <? 0)%Z eqn:E; [apply Z.ltb_lt in E; lia|].
  destruct (Z.of_nat (String.length s) <? 0)%Z eqn:E'; [apply Z.ltb_lt in E'; lia|].
  rewrite Z.min_l by lia. rewrite Z.min_id.
  rewrite Z.max_l by lia.
  rewrite Nat2Z.id. f_equal. lia.
Qed.

Lemma truthy_length (s : string) :
  truthy s = true <-> (0 < String.length s)%nat.
Proof.
  destruct s; simpl; split; intros; try lia; try discriminate; reflexivity.
Qed.

End StringFacts.

(** ** The matcher stays inside the input *)

Section MatcherFacts.

Variable inp : list ascii.

Lemma orElse_some (a b : option State) (z : State) :
  orElse a b = Some z -> a = Some z \/ b = Some z.
Proof. destruct a; simpl; auto. Qed.

Lemma step_some (p : ascii -> bool) (x : State) (k : State -> option State) (z : State) :
  step inp p x k = Some z ->
  exists c, nth_error inp (endIndex x) = Some c /\ p c = true /\
            (endIndex x < List.length inp)%nat /\
            k (mkState (S (endIndex x)) (captures x)) = Some z.
Proof.
  unfold step. destruct (nth_error inp (endIndex x)) as [c|] eqn:E; [|discriminate].
  destruct (p c) eqn:P; [|discriminate].
  intros H. exists c. repeat split; auto.
  apply nth_error_Some. congruence.
Qed.

(** A matcher calls its continuation on a state that is not before the
    one it was given and not after the end of the input. *)
Lemma matcher_bounds (r : regex) :
  forall (x : State) (k : State -> option State) (z : State),
    (endIndex x <= List.length inp)%nat ->
    matcher r inp x k = Some z ->
    exists y, (endIndex x <= endIndex y <= List.length inp)%nat /\ k y = Some z.
Proof.
  induction r as [ |c| |neg rs|r1 IH1 r2 IH2|r1 IH1 r2 IH2|r1 IH1|n r1 IH1];
    intros x k z Hx H; cbn [matcher] in H.
  - exists x. split; [lia | exact H].
  - apply step_some in H. destruct H as (d & _ & _ & Hl & Hk).
    eexists. split; [|exact Hk]. simpl. lia.
  - apply step_some in H. destruct H as (d & _ & _ & Hl & Hk).
    eexists. split; [|exact Hk]. simpl. lia.
  - apply step_some in H. destruct H as (d & _ & _ & Hl & Hk).
    eexists. split; [|exact Hk]. simpl. lia.
  - apply IH1 in H; [|exact Hx]. destruct H as (y1 & B1 & H).
    apply IH2 in H; [|lia]. destruct H as (y2 & B2 & H).
    exists y2. split; [lia | exact H].
  - apply orElse_some in H. destruct H as [H|H]; [apply IH1 in H | apply IH2 in H]; auto.
  - remember (S (List.length inp) - endIndex x)%nat as fuel eqn:Hfuel.
    clear Hfuel. revert x Hx H.
    induction fuel as [|fuel IHf]; intros x Hx H; cbn beta iota in H.
    + exists x. split; [lia | exact H].
    + apply orElse_some in H. destruct H as [H|H].
      * apply IH1 in H; [|exact Hx]. destruct H as (y & By & H).
        destruct (endIndex x <? endIndex y)%nat eqn:E; [|discriminate].
        apply IHf in H; [|lia]. destruct H as (y' & By' & H).
        exists y'. split; [lia | exact H].
      * exists x. split; [lia | exact H].
  - apply IH1 in H; [|exact Hx]. destruct H as (y & By & H).
    eexists. split; [|exact H]. simpl. lia.
Qed.

Lemma scan_some (r : regex) :
  forall (fuel i j : nat) (y : State),
    scan r inp fuel i = Some (j, y) ->
    (i <= j <= i + fuel)%nat /\ matcher r inp (mkState j []) Some = Some y.
Proof.
  induction fuel as [|fuel IH]; intros i j y H; simpl in H.
  - destruct (matcher r inp (mkState i []) Some) eqn:E; [|discriminate].
    inversion H; subst. split; [lia | exact E].
  - destruct (matcher r inp (mkState i []) Some) eqn:E.
    + inversion H; subst. split; [lia | exact E].
    + apply IH in H. destruct H as [B H]. split; [lia | exact H].
Qed.

End MatcherFacts.

(** A match of [r] in [s] lies at [[i, j)] with [i <= j <= s.length]. *)
Lemma exec_bounds (r : regex) (s : string) (i : nat) (y : State) :
  exec r s = Some (i, y) ->
  (i <= endIndex y <= String.length s)%nat.
Proof.
  unfold exec. intros H. apply scan_some in H. destruct H as [B H].
  apply matcher_bounds in H; [|simpl; rewrite list_ascii_length; lia].
  destruct H as (y' & By & Hy). inversion Hy; subst.
  simpl in By. rewrite list_ascii_length in By. lia.
Qed.

(** ** The key pattern captures a key that is not empty *)

Lemma jiraTicketFormat_capture (s : string) (i : nat) (y : State) :
  exec jiraTicketFormat s = Some (i, y) ->
  exists a b, lookup 1 (captures y) = Some (a, b) /\ (a < b <= String.length s)%nat.
Proof.
  unfold exec. intros H. apply scan_some in H. destruct H as [B H].
  set (inp := list_ascii_of_string s) in *.
  assert (L : List.length inp = String.length s) by apply list_ascii_length.
  unfold jiraTicketFormat, Plus in H. simpl matcher in H.
  apply step_some in H. destruct H as (c1 & _ & _ & L1 & H).
  apply step_some in H. destruct H as (c2 & _ & _ & L2 & H).
  apply step_some in H. destruct H as (c3 & _ & _ & L3 & H).
  simpl in L1, L2, L3.
  match type of H with
  | ?f ?fuel ?x = Some y =>
      change (matcher (Star (Cls false letters)) inp x
                (fun y0 => matcher (Seq (Chr "-"%char) (Seq digit (Star digit))) inp y0
                   (fun y1 => Some (mkState (endIndex y1)
                                  ((1%nat, (S (S i), endIndex y1)) :: captures y1)))) = Some y) in H
  end.
  apply matcher_bounds in H; [|simpl; lia]. destruct H as (y1 & B1 & H).
  apply matcher_bounds in H; [|lia]. destruct H as (y2 & B2 & H).
  inversion H; subst y. simpl in *. exists (S (S i)), (endIndex y2).
  split; [reflexivity | lia].
Qed.

(** [found s] is [null] or an array of one key that is not empty. *)
Lemma found_key (s : string) (l : list value) :
  found s = Some l -> exists k, l = [Some k] /\ truthy k = true.
Proof.
  unfold found, match_. destruct (exec jiraTicketFormat s) as [[i y]|] eqn:E; [|discriminate].
  simpl. intros H. inversion H; subst l; clear H.
  destruct (jiraTicketFormat_capture _ _ _ E) as (a & b & Hl & Hab).
  unfold captured. rewrite Hl. eexists. split; [reflexivity|].
  apply truthy_length. rewrite substring_length; lia.
Qed.

Lemma KeyResolver_title (t branch : string) (l : list value) :
  found t = Some l -> KeyResolver t branch = hd None l /\ truthyOpt (hd None l) = true.
Proof.
  intros H. destruct (found_key _ _ H) as (k & -> & Hk).
  unfold KeyResolver. rewrite H. simpl. rewrite Hk. simpl. auto.
Qed.

Lemma KeyResolver_branch (t branch : string) :
  found t = None -> KeyResolver t branch = first (found branch) None.
Proof. intros H. unfold KeyResolver. rewrite H. reflexivity. Qed.

Lemma KeyResolver_none (t branch : string) :
  truthyOpt (KeyResolver t branch) = false <-> found t = None /\ found branch = None.
Proof.
  split.
  - intros H. destruct (found t) as [l|] eqn:Ft.
    + destruct (KeyResolver_title t branch l Ft) as [E T]. rewrite E in H. congruence.
    + split; [reflexivity|]. rewrite (KeyResolver_branch _ _ Ft) in H.
      destruct (found branch) as [l|] eqn:Fb; [|reflexivity].
      destruct (found_key _ _ Fb) as (k & -> & Hk). simpl in H. congruence.
  - intros [Ft Fb]. rewrite (KeyResolver_branch _ _ Ft), Fb. reflexivity.
Qed.

(** A match in the title decides the key: the branch is not looked at. *)
Lemma KeyResolver_ignores_branch (t b1 b2 : string) :
  found t <> None -> KeyResolver t b1 = KeyResolver t b2.
Proof.
  destruct (found t) as [l|] eqn:F; [intros _ | congruence].
  destruct (KeyResolver_title t b1 l F) as [-> _].
  destruct (KeyResolver_title t b2 l F) as [-> _]. reflexivity.
Qed.

(** ** Runs *)

Lemma bind_ret {A B} (a : A) (f : A -> M B) : bind (ret a) f = f a.
Proof. unfold bind, ret. simpl. destruct (f a); reflexivity. Qed.

Lemma bind_done {A B} (t : list Call) (a : A) (f : A -> M B) :
  bind (t, inl a) f = ((t ++ fst (f a))%list, snd (f a)).
Proof. reflexivity. Qed.

Lemma bind_await_ok {A B} (c : Call) (a : A) (f : A -> M B) :
  bind (await c (Ok a)) f = (c :: fst (f a), snd (f a)).
Proof. reflexivity. Qed.

Lemma bind_assoc {A B C} (m : M A) (f : A -> M B) (g : B -> M C) :
  bind (bind m f) g = bind m (fun a => bind (f a) g).
Proof.
  destruct m as [t [a|h]]; unfold bind; simpl; [|reflexivity].
  destruct (f a) as [t' [b|h']]; simpl; [|reflexivity].
  now rewrite app_assoc.
Qed.

Lemma resolve_ok (i : Inputs) (w : World) (p : PullRequest) (latest s : value) :
  pull_request w = Some p ->
  getPull w (number p) = Ok latest ->
  getIssueSummary w (KeyResolver (freshTitle latest p) (head_ref p)) = Ok s ->
  let t := freshTitle latest p in
  let k := KeyResolver t (head_ref p) in
  resolve i w =
    (resolveCalls i p k,
     inl (mkResolved p t (found t) k (if credentials i && truthyOpt k then s else None))).
Proof.
  intros Hp Hg Hs t k. unfold resolve, resolveCalls.
  rewrite Hp, bind_ret, Hg, bind_await_ok.
  fold t. fold k. fold t k in Hs. rewrite Hs.
  destruct (credentials i && truthyOpt k); reflexivity.
Qed.

(** Without a key the summary is not looked up. *)
Lemma resolve_no_key (i : Inputs) (w : World) (p : PullRequest) (latest : value) :
  pull_request w = Some p ->
  getPull w (number p) = Ok latest ->
  truthyOpt (KeyResolver (freshTitle latest p) (head_ref p)) = false ->
  let t := freshTitle latest p in
  resolve i w =
    ([OctokitGetPull (number p)],
     inl (mkResolved p t (found t) (KeyResolver t (head_ref p)) None)).
Proof.
  intros Hp Hg Hk t. unfold resolve.
  rewrite Hp, bind_ret, Hg, bind_await_ok. fold t. fold t in Hk.
  rewrite Hk, andb_false_r. reflexivity.
Qed.

(** ** The key resolver (lines 57-67) *)

(** C1.  The claim says that a title in which a PROJECT-NUMBER token follows
    a non-letter resolves to the full token, AB-42 for the title
    "Fix login bug AB-42", whatever the branch.  The pattern spends the
    non-letter and then one more character on [.], so the key that [main]
    resolves for this title is B-42, for every branch. *)
Theorem KeyResolver_drops_first_letter (branch : string) :
  KeyResolver "Fix login bug AB-42" branch = Some "B-42".
Proof. reflexivity. Qed.

(** C2, as stated, fails: the lowercase branch does match the pattern, a key
    is resolved from it and the run of the default mode goes on to comment on
    the ticket and to update the pull request. *)
Lemma lowercase_branch_resolves :
  KeyResolver "Fix login bug" "feature/ab-99-fix" <> None /\
  existsb mutating
    (fst (run Sample.inputs (Sample.world Sample.lowercaseBranchEvent (Ok None)))) = true.
Proof. split; [discriminate | reflexivity]. Qed.

(** C2, amended.  The pattern takes letters of either case, so the branch
    "feature/ab-99-fix" yields a key.  When neither the title nor the branch
    matches the pattern, no key is resolved, and the run of the webhook mode
    or of the default mode logs the miss and leaves with exit code 0 without
    a mutating call. *)
Theorem no_match_no_mutation :
  (exists k, KeyResolver "Fix login bug" "feature/ab-99-fix" = Some k) /\
  (forall (i : Inputs) (w : World) (p : PullRequest) (latest : value),
     pull_request w = Some p ->
     getPull w (number p) = Ok latest ->
     found (freshTitle latest p) = None ->
     found (head_ref p) = None ->
     truthy (in_webhook i) = true \/
       (isOnlyAppendDesc i = false /\ isCreateIssue i = false) ->
     resolvedKey latest p = None /\
     run i w = (noKeyCalls p, Exited 0) /\
     filter mutating (fst (run i w)) = []).
Proof.
  split; [eexists; reflexivity|].
  intros i w p latest Hp Hg Ft Fb Hmode.
  assert (Hk : truthyOpt (KeyResolver (freshTitle latest p) (head_ref p)) = false)
    by (apply KeyResolver_none; auto).
  assert (Hn : KeyResolver (freshTitle latest p) (head_ref p) = None)
    by (rewrite (KeyResolver_branch _ _ Ft), Fb; reflexivity).
  assert (Hrun : run i w = (noKeyCalls p, Exited 0)).
  { unfold run, main. rewrite (resolve_no_key i w p latest Hp Hg Hk), Hn.
    destruct Hmode as [Hw | [Ha Hc]].
    - rewrite bind_done, Hw. reflexivity.
    - rewrite bind_done, Ha, Hc.
      destruct (truthy (in_webhook i)); reflexivity. }
  split; [exact Hn|]. split; [exact Hrun|]. rewrite Hrun. reflexivity.
Qed.

Lemma no_match_no_mutation_witness :
  resolvedKey (Some "Fix login bug") Sample.noKeyEvent = None /\
  run Sample.inputs (Sample.world Sample.noKeyEvent (Ok None))
    = (noKeyCalls Sample.noKeyEvent, Exited 0) /\
  filter mutating (fst (run Sample.inputs (Sample.world Sample.noKeyEvent (Ok None)))) = [].
Proof.
  apply (proj2 no_match_no_mutation Sample.inputs
           (Sample.world Sample.noKeyEvent (Ok None)) Sample.noKeyEvent
           (Some "Fix login bug")).
  - reflexivity.
  - reflexivity.
  - reflexivity.
  - reflexivity.
  - right. split; reflexivity.
Defined.

(** ** The description edit (lines 97, 103, 126-138, 210) *)

Lemma insert_at_top (b link : string) :
  slice b 0 (0 + 0) ++ "" ++ link ++ newline ++ sliceFrom b (0 + 0) = link ++ newline ++ b.
Proof.
  change (0 + 0)%Z with (Z.of_nat 0).
  rewrite slice_prefix, slice_suffix by lia.
  rewrite substring_zero, Nat.sub_0_r, substring_whole. reflexivity.
Qed.

Lemma appendDesc_no_anchor (w : World) (b link : string) :
  appendDesc w "" (Some b) link = Ok (link ++ newline ++ b).
Proof.
  unfold appendDesc, insertionPoint.
  change (truthy "") with false. cbn iota.
  rewrite Z.eqb_refl. f_equal. apply insert_at_top.
Qed.

(** C9.  Without an anchor pattern the edit returns the link, a newline and
    the body as it was: in the append-only branch (line 138, the pattern
    input empty) and in the branches that prepend (lines 97, 103, 210). *)
Theorem no_anchor_prepends (w : World) (b link : string) :
  appendDesc w "" (Some b) link = Ok (link ++ newline ++ b) /\
  prependLink link (Some b) = link ++ newline ++ b.
Proof.
  split; [apply appendDesc_no_anchor | reflexivity].
Qed.

(** An anchor pattern that does not match the body gives the same result. *)
Lemma unmatched_anchor_prepends (w : World) (anchor b link : string) (re : regex) :
  newRegExp w anchor = Ok re ->
  exec re b = None ->
  appendDesc w anchor (Some b) link = Ok (link ++ newline ++ b).
Proof.
  intros Hc He. unfold appendDesc, insertionPoint.
  destruct (truthy anchor).
  - rewrite Hc. unfold search. rewrite He. simpl. f_equal. apply insert_at_top.
  - rewrite Z.eqb_refl. f_equal. apply insert_at_top.
Qed.

Lemma insertionPoint_match (w : World) (anchor b : string) (re : regex)
    (i : nat) (y : State) :
  truthy anchor = true ->
  newRegExp w anchor = Ok re ->
  exec re b = Some (i, y) ->
  insertionPoint w anchor (Some b) = Ok (Z.of_nat i, Z.of_nat (endIndex y - i)).
Proof.
  intros Ha Hc He. pose proof (exec_bounds _ _ _ _ He) as B.
  unfold insertionPoint. rewrite Ha, Hc. unfold search, match_. rewrite He.
  destruct (Z.of_nat i =? -1)%Z eqn:E; [apply Z.eqb_eq in E; lia|].
  unfold len. rewrite substring_length by lia. reflexivity.
Qed.

(** An anchor matched at [[i, j)] with [0 < i]: the body up to [j], a
    space, the link, the rest of the body. *)
Lemma appendDesc_after_anchor (w : World) (anchor b link : string) (re : regex)
    (i : nat) (y : State) :
  truthy anchor = true ->
  newRegExp w anchor = Ok re ->
  exec re b = Some (i, y) ->
  (0 < i)%nat ->
  let j := endIndex y in
  (i <= j <= String.length b)%nat /\
  substring 0 j b ++ substring j (String.length b - j) b = b /\
  appendDesc w anchor (Some b) link =
    Ok (substring 0 j b ++ " " ++ link ++ substring j (String.length b - j) b).
Proof.
  intros Ha Hc He Hi j. pose proof (exec_bounds _ _ _ _ He) as B. fold j in B.
  split; [exact B|]. split; [apply substring_split; lia|].
  unfold appendDesc. rewrite (insertionPoint_match _ _ _ _ _ _ Ha Hc He). fold j.
  replace (Z.of_nat i + Z.of_nat (j - i))%Z with (Z.of_nat j) by lia.
  rewrite slice_prefix, slice_suffix by lia.
  destruct (Z.of_nat i =? 0)%Z eqn:E; [apply Z.eqb_eq in E; lia|].
  reflexivity.
Qed.

(** An anchor matched at [[0, j)]: the body up to [j], the link with no
    space before it, a newline, the rest of the body. *)
Lemma appendDesc_anchor_at_start (w : World) (anchor b link : string) (re : regex)
    (y : State) :
  truthy anchor = true ->
  newRegExp w anchor = Ok re ->
  exec re b = Some (0%nat, y) ->
  let j := endIndex y in
  appendDesc w anchor (Some b) link =
    Ok (substring 0 j b ++ link ++ newline ++ substring j (String.length b - j) b).
Proof.
  intros Ha Hc He j. pose proof (exec_bounds _ _ _ _ He) as B. fold j in B.
  unfold appendDesc. rewrite (insertionPoint_match _ _ _ _ _ _ Ha Hc He). fold j.
  replace (Z.of_nat 0 + Z.of_nat (j - 0))%Z with (Z.of_nat j) by lia.
  rewrite slice_prefix, slice_suffix by lia. reflexivity.
Qed.

(** C4.  The claim says that an anchor matched at [[i, j)] gives the body up
    to [j], one space, the link, and the rest.  For the body "Ticket: rest"
    and the anchor [Ticket:], matched at [[0, 7)], line 138 tests
    [from === 0] to tell that there was no match: the link follows the
    anchor with no space and is followed by a newline. *)
Theorem anchor_at_start_loses_space :
  search "Ticket: rest" Sample.ticketAnchor = 0%Z /\
  match_ "Ticket: rest" Sample.ticketAnchor = Some [Some "Ticket:"] /\
  appendDesc (Sample.world (Sample.keyedEvent (Some "Ticket: rest") false) (Ok None))
      "Ticket:" (Some "Ticket: rest") "[AB-42](https://jira.example/browse/AB-42)"
    = Ok ("Ticket:" ++ "[AB-42](https://jira.example/browse/AB-42)" ++ newline ++ " rest") /\
  appendDesc (Sample.world (Sample.keyedEvent (Some "Ticket: rest") false) (Ok None))
      "Ticket:" (Some "Ticket: rest") "[AB-42](https://jira.example/browse/AB-42)"
    <> Ok ("Ticket:" ++ " " ++ "[AB-42](https://jira.example/browse/AB-42)" ++ " rest").
Proof. repeat split. discriminate. Qed.

(** C3, as stated, fails: with a nil body the append-only mode throws on
    [pr.body.slice] and the run fails before the pull request is updated. *)
Lemma nil_body_append_fails :
  run (Sample.appendOnly "")
      (Sample.world (Sample.keyedEvent None false) (Ok None))
  = ([OctokitGetPull 7; CoreSetFailed (nullError "slice")], Failed (nullError "slice")).
Proof. reflexivity. Qed.

(** C3, amended.  For a body that is the empty string the edit puts the link
    at offset 0 (the link and a newline), in the append-only branch whatever
    the anchor pattern and in the branches that prepend, and the append-only
    mode updates the pull request and leaves with exit code 0. *)
Theorem empty_body_edit (i : Inputs) (w : World) (r : Resolved) :
  in_appendDescAfterRegex i = "" \/
    (exists re, newRegExp w (in_appendDescAfterRegex i) = Ok re) ->
  body (pr r) = Some "" ->
  updatePR w None (Some (resolvedLink i r ++ newline)) = Ok tt ->
  appendDesc w (in_appendDescAfterRegex i) (Some "") (resolvedLink i r)
    = Ok (resolvedLink i r ++ newline) /\
  prependLink (resolvedLink i r) (Some "") = resolvedLink i r ++ newline /\
  appendDescMode i w r =
    ([GitUpdatePR None (Some (resolvedLink i r ++ newline));
      CoreInfo "update PR description complete"],
     inr (Exit 0)).
Proof.
  intros Hre Hb Hu. unfold resolvedLink in *.
  set (link := linkByTitle (in_host i) (key r) (foundInTitle r) (issueTitle r)) in *.
  assert (E : appendDesc w (in_appendDescAfterRegex i) (Some "") link = Ok (link ++ newline)).
  { destruct Hre as [Hre | [re Hre]].
    - rewrite Hre. apply appendDesc_no_anchor.
    - destruct (exec re "") as [[n y]|] eqn:He.
      + destruct (truthy (in_appendDescAfterRegex i)) eqn:Ht.
        * pose proof (exec_bounds _ _ _ _ He) as B. simpl in B.
          assert (n = 0)%nat by lia. subst n.
          rewrite (appendDesc_anchor_at_start _ _ _ _ _ _ Ht Hre He).
          now rewrite !substring_empty.
        * unfold appendDesc, insertionPoint. rewrite Ht. reflexivity.
      + apply (unmatched_anchor_prepends _ _ _ _ _ Hre He). }
  split; [exact E|]. split; [reflexivity|].
  unfold appendDescMode. rewrite Hb. fold link. rewrite E.
  unfold lift. rewrite bind_ret, Hu. reflexivity.
Qed.

Lemma empty_body_edit_witness :
  appendDesc (Sample.world (Sample.keyedEvent (Some "") false) (Ok None)) "Ticket:"
      (Some "") "[AB-42: undefined](https://jira.example/browse/AB-42)"
    = Ok ("[AB-42: undefined](https://jira.example/browse/AB-42)" ++ newline) /\
  prependLink "[AB-42: undefined](https://jira.example/browse/AB-42)" (Some "")
    = "[AB-42: undefined](https://jira.example/browse/AB-42)" ++ newline /\
  appendDescMode (Sample.appendOnly "Ticket:")
      (Sample.world (Sample.keyedEvent (Some "") false) (Ok None))
      (mkResolved (Sample.keyedEvent (Some "") false) "fix: AB-42 login"
         (found "fix: AB-42 login") (Some "AB-42") None)
    = ([GitUpdatePR None
          (Some ("[AB-42: undefined](https://jira.example/browse/AB-42)" ++ newline));
        CoreInfo "update PR description complete"],
       inr (Exit 0)).
Proof.
  apply (empty_body_edit (Sample.appendOnly "Ticket:")
           (Sample.world (Sample.keyedEvent (Some "") false) (Ok None))
           (mkResolved (Sample.keyedEvent (Some "") false) "fix: AB-42 login"
              (found "fix: AB-42 login") (Some "AB-42") None)).
  - right. exists Sample.ticketAnchor. reflexivity.
  - reflexivity.
  - reflexivity.
Defined.

(** ** The link text (lines 97, 103, 138, 210) *)

(** The webhook branch shows the summary exactly when one was fetched. *)
Lemma linkBySummary_text (host k : string) :
  (forall s, truthy s = true ->
     linkBySummary host (Some k) (Some s)
       = "[" ++ k ++ ": " ++ s ++ "](" ++ host ++ "/browse/" ++ k ++ ")") /\
  linkBySummary host (Some k) None = "[" ++ k ++ "](" ++ host ++ "/browse/" ++ k ++ ")".
Proof.
  split; [|reflexivity]. intros s Hs. unfold linkBySummary. simpl truthyOpt.
  rewrite Hs. reflexivity.
Qed.

(** C5.  The claim says that every path shows the summary exactly when one
    was fetched.  Lines 138 and 210 test [foundInTitle] where lines 97 and
    103 test [issueTitle]: in the default mode a key found in the title with
    no credentials configured (nothing fetched) gives the text
    [KEY: undefined], and a key found in the branch gives the text [KEY]
    although the summary "Login bug" was fetched. *)
Theorem link_text_follows_title_match :
  run Sample.inputs
      (Sample.world (Sample.keyedEvent (Some "text") false) (Ok (Some "Login bug")))
  = ([OctokitGetPull 7;
      JiraPostComment (Some "AB-42") "https://github.example/o/r/pull/7";
      GitUpdatePR None
        (Some ("[AB-42: undefined](https://jira.example/browse/AB-42)" ++ newline ++ "text"));
      CoreInfo "New issue created"], Completed)
  /\
  run (Sample.withCredentials Sample.inputs)
      (Sample.world Sample.branchKeyedEvent (Ok (Some "Login bug")))
  = ([OctokitGetPull 7;
      CoreInfo "Detected jira issue in PR title/branch: AB-42";
      JiraGetIssueSummary (Some "AB-42");
      JiraPostComment (Some "AB-42") "https://github.example/o/r/pull/7";
      GitUpdatePR (Some "login [AB-42]")
        (Some ("[AB-42](https://jira.example/browse/AB-42)" ++ newline ++ "text"));
      CoreInfo "New issue created"], Completed).
Proof. split; reflexivity. Qed.

(** ** The summary lookup (lines 72-75) *)

(** C6.  The claim says that a failure of the summary lookup is caught and
    logged and that the run goes on.  Line 74 awaits the lookup with no
    handler (line 158 gives the user lookup one): when the lookup is
    rejected, [main] is rejected, nothing after line 74 is executed and the
    run fails with the lookup's error. *)
Theorem summary_failure_aborts (i : Inputs) (w : World) (p : PullRequest)
    (latest : value) (e : string) :
  pull_request w = Some p ->
  getPull w (number p) = Ok latest ->
  credentials i = true ->
  truthyOpt (resolvedKey latest p) = true ->
  getIssueSummary w (resolvedKey latest p) = Err e ->
  run i w =
    ([OctokitGetPull (number p); detected (resolvedKey latest p);
      JiraGetIssueSummary (resolvedKey latest p); CoreSetFailed e],
     Failed e).
Proof.
  unfold resolvedKey.
  set (k := KeyResolver (freshTitle latest p) (head_ref p)).
  intros Hp Hg Hc Hk He. unfold run, main, resolve.
  rewrite Hp, bind_ret, Hg, bind_await_ok. fold k. rewrite Hc, Hk, He. reflexivity.
Qed.

Lemma summary_failure_aborts_witness :
  run (Sample.withCredentials Sample.inputs)
      (Sample.world (Sample.keyedEvent (Some "text") false)
         (Err "Request failed with status code 404"))
  = ([OctokitGetPull 7; detected (Some "AB-42"); JiraGetIssueSummary (Some "AB-42");
      CoreSetFailed "Request failed with status code 404"],
     Failed "Request failed with status code 404").
Proof.
  apply (summary_failure_aborts (Sample.withCredentials Sample.inputs)
           (Sample.world (Sample.keyedEvent (Some "text") false)
              (Err "Request failed with status code 404"))
           (Sample.keyedEvent (Some "text") false)
           (Some "fix: AB-42 login") "Request failed with status code 404");
    reflexivity.
Defined.

(** ** The webhook mode on a merged pull request (lines 77-93) *)

(** C8.  With a webhook configured, a key resolved and the pull request
    merged, the run posts to the webhook, looks the version up by prefix and
    puts it on the ticket exactly when [isAddFixVersionOnMerge] is set, and
    leaves with exit code 0; it neither updates the pull request nor
    comments on the ticket. *)
Theorem webhook_merged_run (i : Inputs) (w : World) (p : PullRequest)
    (latest s : value) (v : string) :
  pull_request w = Some p ->
  merged p = true ->
  truthy (in_webhook i) = true ->
  getPull w (number p) = Ok latest ->
  truthyOpt (resolvedKey latest p) = true ->
  getIssueSummary w (resolvedKey latest p) = Ok s ->
  request w (in_webhook i) [resolvedKey latest p] = Ok tt ->
  getVersionIdByPrefix w (in_version i) = Ok v ->
  putFixVersion w (resolvedKey latest p) v = Ok tt ->
  run i w =
    ((resolveCalls i p (resolvedKey latest p)
        ++ [Request (in_webhook i) [resolvedKey latest p]; CoreInfo "webhook complete"]
        ++ fixVersionCalls i (resolvedKey latest p) v)%list,
     Exited 0) /\
  (In (JiraPutFixVersion (resolvedKey latest p) v) (fst (run i w))
   <-> isAddFixVersionOnMerge i = true) /\
  existsb updatesOrComments (fst (run i w)) = false.
Proof.
  unfold resolvedKey.
  set (k := KeyResolver (freshTitle latest p) (head_ref p)).
  intros Hp Hm Hw Hg Hk Hs Hr Hv Hf.
  assert (Hrun : run i w =
    ((resolveCalls i p k
        ++ [Request (in_webhook i) [k]; CoreInfo "webhook complete"]
        ++ fixVersionCalls i k v)%list, Exited 0)).
  { unfold run, main. rewrite (resolve_ok i w p latest s Hp Hg Hs). fold k.
    rewrite bind_done, Hw. unfold webhookMode, fixVersionCalls. cbn [key pr].
    rewrite Hk, Hm, Hr. cbn [negb when]. rewrite bind_ret, bind_await_ok.
    destruct (isAddFixVersionOnMerge i).
    - cbn [when]. rewrite Hv. cbn. rewrite Hf. reflexivity.
    - reflexivity. }
  split; [exact Hrun|]. rewrite Hrun. cbn [fst].
  unfold resolveCalls, fixVersionCalls. split.
  - destruct (isAddFixVersionOnMerge i); split; intros H; try reflexivity.
    + apply in_or_app. right. simpl. auto.
    + destruct (credentials i && truthyOpt k); simpl in H;
        repeat (destruct H as [H|H]; [discriminate|]); destruct H.
    + discriminate.
  - destruct (credentials i && truthyOpt k), (isAddFixVersionOnMerge i); reflexivity.
Qed.

Lemma webhook_merged_run_witness :
  run (Sample.webhookOnMerge "true")
      (Sample.world (Sample.keyedEvent (Some "text") true) (Ok (Some "Login bug")))
  = ([OctokitGetPull 7;
      Request "https://hooks.example/jira" [Some "AB-42"];
      CoreInfo "webhook complete";
      JiraGetVersionIdByPrefix "2.1";
      JiraPutFixVersion (Some "AB-42") "10042"],
     Exited 0) /\
  (In (JiraPutFixVersion (Some "AB-42") "10042")
      (fst (run (Sample.webhookOnMerge "true")
              (Sample.world (Sample.keyedEvent (Some "text") true) (Ok (Some "Login bug")))))
   <-> isAddFixVersionOnMerge (Sample.webhookOnMerge "true") = true) /\
  existsb updatesOrComments
    (fst (run (Sample.webhookOnMerge "true")
            (Sample.world (Sample.keyedEvent (Some "text") true) (Ok (Some "Login bug")))))
  = false.
Proof.
  apply (webhook_merged_run (Sample.webhookOnMerge "true")
           (Sample.world (Sample.keyedEvent (Some "text") true) (Ok (Some "Login bug")))
           (Sample.keyedEvent (Some "text") true)
           (Some "fix: AB-42 login") (Some "Login bug") "10042");
    reflexivity.
Defined.

(** ** The append-only mode without a key (lines 125-143) *)

Lemma append_assoc (a b c : string) : (a ++ b) ++ c = a ++ b ++ c.
Proof. induction a as [|x a IH]; simpl; [reflexivity | now rewrite IH]. Qed.

Lemma appendDesc_has_link (w : World) (anchor : string) (prBody : value)
    (link newBody : string) :
  appendDesc w anchor prBody link = Ok newBody ->
  exists before after, newBody = before ++ link ++ after.
Proof.
  unfold appendDesc.
  destruct (insertionPoint w anchor prBody) as [[from length]|e]; [|discriminate].
  destruct prBody as [b|]; [|discriminate].
  intros H. inversion H; subst newBody; clear H.
  exists (slice b 0 (from + length) ++ (if (from =? 0)%Z then "" else " ")),
         ((if (from =? 0)%Z then newline else "") ++ sliceFrom b (from + length)).
  now rewrite append_assoc.
Qed.

(** C10.  In the append-only mode, with no webhook and no key resolved from
    the title or the branch, nothing stops the run before the update: the
    body of the pull request is rewritten with the link
    [[undefined](HOST/browse/undefined)] in it (at the top when no anchor
    pattern is configured), and the run leaves with exit code 0. *)
Theorem append_only_without_key (i : Inputs) (w : World) (p : PullRequest)
    (latest : value) (b newBody : string) :
  pull_request w = Some p ->
  getPull w (number p) = Ok latest ->
  body p = Some b ->
  truthy (in_webhook i) = false ->
  isOnlyAppendDesc i = true ->
  resolvedKey latest p = None ->
  appendDesc w (in_appendDescAfterRegex i) (Some b) (undefinedLink i) = Ok newBody ->
  updatePR w None (Some newBody) = Ok tt ->
  run i w =
    ([OctokitGetPull (number p); GitUpdatePR None (Some newBody);
      CoreInfo "update PR description complete"], Exited 0) /\
  (exists before after, newBody = before ++ undefinedLink i ++ after) /\
  (in_appendDescAfterRegex i = "" -> newBody = undefinedLink i ++ newline ++ b).
Proof.
  unfold resolvedKey. set (link := undefinedLink i).
  intros Hp Hg Hb Hw Ha Hk He Hu.
  assert (Hk' : truthyOpt (KeyResolver (freshTitle latest p) (head_ref p)) = false)
    by (rewrite Hk; reflexivity).
  destruct (proj1 (KeyResolver_none _ _) Hk') as [Ft _].
  split; [|split].
  - unfold run, main. rewrite (resolve_no_key i w p latest Hp Hg Hk'), Hk, Ft.
    rewrite bind_done, Hw, Ha. unfold appendDescMode. cbn [pr key foundInTitle issueTitle].
    rewrite Hb.
    change (linkByTitle (in_host i) None None None) with link.
    rewrite He. unfold lift. rewrite bind_ret, Hu. reflexivity.
  - exact (appendDesc_has_link _ _ _ _ _ He).
  - intros E. rewrite E in He.
    rewrite appendDesc_no_anchor in He. congruence.
Qed.

Lemma append_only_without_key_witness :
  run (Sample.appendOnly "Ticket:") (Sample.world Sample.anchoredEvent (Ok None))
  = ([OctokitGetPull 7;
      GitUpdatePR None
        (Some "See Ticket: [undefined](https://jira.example/browse/undefined) rest");
      CoreInfo "update PR description complete"], Exited 0) /\
  (exists before after,
     "See Ticket: [undefined](https://jira.example/browse/undefined) rest"
       = before ++ "[undefined](https://jira.example/browse/undefined)" ++ after) /\
  (in_appendDescAfterRegex (Sample.appendOnly "Ticket:") = "" ->
   "See Ticket: [undefined](https://jira.example/browse/undefined) rest"
     = "[undefined](https://jira.example/browse/undefined)" ++ newline ++ "See Ticket: rest").
Proof.
  apply (append_only_without_key (Sample.appendOnly "Ticket:")
           (Sample.world Sample.anchoredEvent (Ok None)) Sample.anchoredEvent
           (Some "Fix login bug") "See Ticket: rest"
           "See Ticket: [undefined](https://jira.example/browse/undefined) rest");
    reflexivity.
Defined.

(** ** The update of the shared tail (lines 145-216) *)

Lemma bind_trace {A B} (m : M A) (f : A -> M B) :
  fst (bind m f) =
    (fst m ++ match snd m with inl a => fst (f a) | inr _ => [] end)%list.
Proof.
  unfold bind. destruct (snd m); simpl; [reflexivity | now rewrite app_nil_r].
Qed.

Lemma updates_app (a b : list Call) : updates (a ++ b) = (updates a ++ updates b)%list.
Proof. apply filter_app. Qed.

Lemma justCreated_app (a b : list Call) :
  justCreated (a ++ b) = justCreated a || justCreated b.
Proof. apply existsb_app. Qed.

Lemma in_updates (t b : value) (calls : list Call) :
  In (GitUpdatePR t b) calls <-> In (GitUpdatePR t b) (updates calls).
Proof.
  unfold updates. rewrite filter_In. simpl. tauto.
Qed.

Lemma run_main_trace (i : Inputs) (w : World) :
  updates (fst (run i w)) = updates (fst (main i w)) /\
  justCreated (fst (run i w)) = justCreated (fst (main i w)) /\
  (forall c, In c (fst (main i w)) -> In c (fst (run i w))).
Proof.
  unfold run. destruct (main i w) as [t [u|[c|e]]]; simpl; auto.
  rewrite updates_app, justCreated_app. simpl.
  rewrite app_nil_r, orb_false_r. repeat split. intros c H. apply in_or_app. auto.
Qed.

Lemma resolve_cases (i : Inputs) (w : World) (p : PullRequest) (latest : value) :
  pull_request w = Some p ->
  getPull w (number p) = Ok latest ->
  updates (fst (resolve i w)) = [] /\
  justCreated (fst (resolve i w)) = false /\
  (forall r, snd (resolve i w) = inl r ->
     pr r = p /\ latestPrTitle r = freshTitle latest p /\
     foundInTitle r = found (freshTitle latest p) /\
     key r = KeyResolver (freshTitle latest p) (head_ref p)).
Proof.
  intros Hp Hg. unfold resolve. rewrite Hp, bind_ret, Hg, bind_await_ok.
  destruct (credentials i && truthyOpt (KeyResolver (freshTitle latest p) (head_ref p)));
    [destruct (getIssueSummary w (KeyResolver (freshTitle latest p) (head_ref p)))|];
    cbn; (split; [reflexivity | split; [reflexivity|]]);
    intros r H; inversion H; subst; cbn; auto.
Qed.

(** The tail creates no ticket; when it updates the pull request it does so
    once, after the comment, with the link at the top of the body. *)
Lemma sharedTail_calls (i : Inputs) (w : World) (r : Resolved) (k s : value) :
  let calls := fst (sharedTail i w r k s) in
  let newBody :=
    Some (prependLink (linkByTitle (in_host i) k (foundInTitle r) s) (body (pr r))) in
  let newTitle :=
    if isCreateIssue i || negb (isFound (foundInTitle r))
    then Some (TitleComposer (latestPrTitle r) k) else None in
  justCreated calls = false /\
  (updates calls = [] \/
   (updates calls = [GitUpdatePR newTitle newBody] /\ truthyOpt k = true /\
    In (JiraPostComment k (html_url (pr r))) calls)).
Proof.
  intros calls newBody newTitle. subst calls. unfold sharedTail.
  fold newBody. fold newTitle.
  generalize newBody newTitle. clear newBody newTitle. intros newBody newTitle.
  generalize (html_url (pr r)). intros url.
  destruct (truthyOpt k); [|settled].
  destruct (isOnlyTransition i), (isAssignToReporter i),
    (truthy (in_otherAssignedTransition i));
    cbn [when negb]; rewrite !bind_ret;
    try (destruct (isMeCreatedIssue w k) as [[|]|e]; [| |settled];
         rewrite bind_assoc, bind_await_ok, bind_ret; cbn [negb fst snd]);
    match goal with
    | |- context [truthy ?t] => destruct (truthy t)
    end;
    unfold await, lift; cbn; repeat oracle; settled.
Qed.

(** Creating creates: the mode updates nothing itself, and it hands a key
    to the tail only after [postIssue] answered with that key, which it is
    asked for only when the pattern found nothing in the title. *)
Lemma createIssueMode_calls (i : Inputs) (w : World) (r : Resolved) :
  updates (fst (createIssueMode i w r)) = [] /\
  (forall k s, snd (createIssueMode i w r) = inl (k, s) ->
     justCreated (fst (createIssueMode i w r)) = true /\
     isFound (foundInTitle r) = false /\
     exists u, postIssue w (latestPrTitle r) u = Ok k).
Proof.
  unfold createIssueMode.
  generalize (latestPrTitle r). intros T.
  destruct (truthy (in_project i)), (truthy (in_type i)),
    (isFound (foundInTitle r)), (truthyOpt (key r)), (truthy (in_board i));
    cbn [when negb orb]; unfold catch, await, lift; cbn;
    try (split; [reflexivity | intros ? ? H; discriminate H]);
    repeat first [oracle | sprint];
    (split; [reflexivity | intros ? ? H; try discriminate H]);
    inversion H; subst; repeat split; eauto.
Qed.

(** The form of every update of a run that does not take the webhook or the
    append-only mode, whatever the collaborators answer. *)
Lemma update_form (i : Inputs) (w : World) (p : PullRequest)
    (latest t b : value) :
  pull_request w = Some p ->
  getPull w (number p) = Ok latest ->
  truthy (in_webhook i) = false ->
  isOnlyAppendDesc i = false ->
  In (GitUpdatePR t b) (fst (run i w)) ->
  exists k s,
    truthyOpt k = true /\
    In (JiraPostComment k (html_url p)) (fst (run i w)) /\
    b = Some (prependLink
                (linkByTitle (in_host i) k (found (freshTitle latest p)) s) (body p)) /\
    t = (if justCreated (fst (run i w)) || negb (isFound (found (freshTitle latest p)))
         then Some (TitleComposer (freshTitle latest p) k) else None) /\
    (if justCreated (fst (run i w))
     then exists u, postIssue w (freshTitle latest p) u = Ok k
     else k = resolvedKey latest p).
Proof.
  unfold resolvedKey. set (T := freshTitle latest p).
  intros Hp Hg Hw Ha Hin.
  destruct (run_main_trace i w) as (Ru & Rc & Rin).
  apply in_updates in Hin. rewrite Ru in Hin. rewrite Rc.
  assert (Hpost : forall k, In (JiraPostComment k (html_url p)) (fst (main i w)) ->
                            In (JiraPostComment k (html_url p)) (fst (run i w)))
    by (intros k; apply Rin).
  clear Ru Rc Rin. revert Hin Hpost. generalize (fst (run i w)). intros calls.
  unfold main. rewrite bind_trace, updates_app, justCreated_app.
  destruct (resolve_cases i w p latest Hp Hg) as (U1 & C1 & R1).
  rewrite U1, C1. cbn [app orb].
  destruct (snd (resolve i w)) as [r|h]; [|intros []].
  destruct (R1 r eq_refl) as (Rp & Rt & Rf & Rk). fold T in Rt, Rf, Rk.
  rewrite Hw, Ha, bind_trace, updates_app, justCreated_app.
  pose proof (sharedTail_calls i w r) as Tail. cbn zeta in Tail.
  rewrite Rp, Rt, Rf in Tail.
  destruct (isCreateIssue i) eqn:Hc.
  - destruct (createIssueMode_calls i w r) as (U2 & K2). rewrite U2.
    destruct (snd (createIssueMode i w r)) as [[k s]|h]; [|intros []].
    destruct (K2 k s eq_refl) as (C2 & F2 & u & Hu). rewrite C2.
    rewrite Rt in Hu. rewrite Rf in F2.
    destruct (Tail k s) as (_ & [U3 | (U3 & Tk & Pc)]); cbn [fst snd app];
      rewrite U3; [intros [] | intros [E|[]] Hpost].
    inversion E; subst t b. exists k, s. repeat split; auto.
    + apply Hpost. apply in_or_app. right. apply in_or_app. right. exact Pc.
    + exists u. exact Hu.
  - cbn [ret fst snd].
    change (updates []) with (@nil Call). change (justCreated []) with false.
    cbn [app orb].
    destruct (Tail (key r) (issueTitle r)) as (C3 & [U3 | (U3 & Tk & Pc)]);
      rewrite U3, C3; [intros [] | intros [E|[]] Hpost].
    inversion E; subst t b. exists (key r), (issueTitle r). repeat split; auto.
    apply Hpost. apply in_or_app. right. exact Pc.
Qed.

Lemma bind_result {A B} (m : M A) (f : A -> M B) :
  snd (bind m f) = match snd m with inl a => snd (f a) | inr h => inr h end.
Proof. unfold bind. destruct (snd m); reflexivity. Qed.

(** An answer the collaborators are known to give is not a rejection. *)
Ltac answered W :=
  match goal with
  | E : _ = Err _ |- _ =>
      first [ rewrite (ans_postTransit _ W) in E | rewrite (ans_putAssign _ W) in E
            | rewrite (ans_postComment _ W) in E | rewrite (ans_updatePR _ W) in E
            | rewrite (ans_postMove _ W) in E ];
      discriminate E
  | E : ?x = Err _, F : ?x = Ok _ |- _ => rewrite F in E; discriminate E
  end.

(** With the collaborators answering and a key at hand, the tail that is not
    told to stop after the transition runs to its end and updates the pull
    request once. *)
Lemma sharedTail_answered (i : Inputs) (w : World) (r : Resolved) (k s : value) :
  Answering w ->
  truthyOpt k = true ->
  isOnlyTransition i = false ->
  snd (sharedTail i w r k s) = inl tt /\
  updates (fst (sharedTail i w r k s)) <> [].
Proof.
  intros W Hk Ho. unfold sharedTail. rewrite Hk, Ho.
  generalize (html_url (pr r)). intros url.
  match goal with
  | |- context [await (GitUpdatePR ?a ?b)] => generalize a; generalize b
  end.
  intros newBody newTitle.
  destruct (ans_isMe _ W k) as [me Hme].
  destruct (ans_getReporter _ W k) as [reporter Hrep].
  destruct (isAssignToReporter i), (truthy (in_otherAssignedTransition i));
    cbn [when negb]; rewrite !bind_ret;
    try (rewrite Hme, bind_assoc, bind_await_ok, bind_ret; cbn [negb fst snd]);
    match goal with
    | |- context [when (truthy ?x)] => destruct (truthy x)
    end;
    unfold await, lift; cbn; rewrite ?Hrep; cbn;
    repeat (oracle; try answered W);
    (split; [repeat match goal with u : unit |- _ => destruct u end; reflexivity
            | discriminate]).
Qed.

(** With the collaborators answering, its inputs configured and no key
    resolved, the create-issue mode hands the key of a new ticket to the
    tail. *)
Lemma createIssueMode_answered (i : Inputs) (w : World) (r : Resolved) :
  Answering w ->
  truthy (in_project i) = true ->
  truthy (in_type i) = true ->
  isFound (foundInTitle r) = false ->
  truthyOpt (key r) = false ->
  exists k, truthyOpt k = true /\
            snd (createIssueMode i w r) = inl (k, Some (latestPrTitle r)).
Proof.
  intros W Hj Ht Hf Hk. unfold createIssueMode. rewrite Hj, Ht, Hf, Hk.
  generalize (latestPrTitle r). intros T.
  destruct (ans_getUser _ W (actor w)) as [name Hn].
  destruct (ans_getSprints _ W) as (id & rest & Hs).
  destruct (truthy (in_board i));
    cbn [when negb orb]; rewrite Hn; unfold catch, await, lift, info, tell; cbn;
    (destruct (getUserIdByFuzzyName w name) as [u|e]; cbn;
     [destruct (ans_postIssue _ W T u) as (k & Hp & Tk)
     |destruct (ans_postIssue _ W T None) as (k & Hp & Tk)]);
    rewrite Hp; cbn; rewrite ?Hs; cbn; rewrite ?(ans_postMove _ W); cbn;
    exists k; (split; [exact Tk | reflexivity]).
Qed.

(** C7.  In a run that does not take the webhook or the append-only mode,
    every update of the pull request comes after the comment on the ticket,
    its body is the link, a newline and the old body, and it carries the
    title "TITLE [KEY]" exactly when a ticket was created in the run or the
    pattern found no key in the title, and no title otherwise.  And the tail
    does update: when the collaborators answer, [isOnlyTransition] is not
    set, and the default mode has a key or the create-issue mode has its
    inputs and no key, the run creates a ticket exactly in the create-issue
    mode, makes exactly one update, of that form, and [main] returns. *)
Theorem shared_tail_update (i : Inputs) (w : World) (p : PullRequest)
    (latest : value) :
  pull_request w = Some p ->
  getPull w (number p) = Ok latest ->
  truthy (in_webhook i) = false ->
  isOnlyAppendDesc i = false ->
  (forall t b,
     In (GitUpdatePR t b) (fst (run i w)) ->
     exists k s,
       truthyOpt k = true /\
       In (JiraPostComment k (html_url p)) (fst (run i w)) /\
       b = Some (prependLink
                   (linkByTitle (in_host i) k (found (freshTitle latest p)) s) (body p)) /\
       t = (if justCreated (fst (run i w)) || negb (isFound (found (freshTitle latest p)))
            then Some (TitleComposer (freshTitle latest p) k) else None) /\
       (if justCreated (fst (run i w))
        then exists u, postIssue w (freshTitle latest p) u = Ok k
        else k = resolvedKey latest p)) /\
  (Answering w ->
   isOnlyTransition i = false ->
   reachesTail i (resolvedKey latest p) ->
   snd (run i w) = Completed /\
   justCreated (fst (run i w)) = isCreateIssue i /\
   exists k s,
     truthyOpt k = true /\
     In (JiraPostComment k (html_url p)) (fst (run i w)) /\
     updates (fst (run i w)) =
       [GitUpdatePR
          (if justCreated (fst (run i w)) || negb (isFound (found (freshTitle latest p)))
           then Some (TitleComposer (freshTitle latest p) k) else None)
          (Some (prependLink
                   (linkByTitle (in_host i) k (found (freshTitle latest p)) s) (body p)))] /\
     (if justCreated (fst (run i w))
      then exists u, postIssue w (freshTitle latest p) u = Ok k
      else k = resolvedKey latest p)).
Proof.
  intros Hp Hg Hw Ha.
  assert (Form : forall t b,
     In (GitUpdatePR t b) (fst (run i w)) ->
     exists k s,
       truthyOpt k = true /\
       In (JiraPostComment k (html_url p)) (fst (run i w)) /\
       b = Some (prependLink
                   (linkByTitle (in_host i) k (found (freshTitle latest p)) s) (body p)) /\
       t = (if justCreated (fst (run i w)) || negb (isFound (found (freshTitle latest p)))
            then Some (TitleComposer (freshTitle latest p) k) else None) /\
       (if justCreated (fst (run i w))
        then exists u, postIssue w (freshTitle latest p) u = Ok k
        else k = resolvedKey latest p))
    by (intros t b; apply update_form; assumption).
  split; [exact Form|].
  intros W Ho Hr.
  assert (Hmain : snd (main i w) = inl tt /\
                  justCreated (fst (main i w)) = isCreateIssue i /\
                  updates (fst (main i w)) <> []).
  { destruct (ans_getSummary _ W (resolvedKey latest p)) as [s0 Hs0].
    unfold main. rewrite (resolve_ok i w p latest s0 Hp Hg Hs0).
    set (r := mkResolved _ _ _ _ _).
    rewrite bind_done. cbn [fst snd]. rewrite Hw, Ha.
    rewrite bind_result, bind_trace, !justCreated_app, !updates_app.
    assert (C1 : justCreated (resolveCalls i p (KeyResolver (freshTitle latest p) (head_ref p)))
                 = false)
      by (unfold resolveCalls; destruct (credentials i && truthyOpt _); reflexivity).
    rewrite C1. unfold reachesTail, resolvedKey in Hr.
    destruct (isCreateIssue i).
    - destruct Hr as (Hj & Ht & Hk).
      assert (Hf : isFound (foundInTitle r) = false).
      { apply KeyResolver_none in Hk. destruct Hk as [Hk _]. cbn. now rewrite Hk. }
      destruct (createIssueMode_answered i w r W Hj Ht Hf Hk) as (k & Tk & E).
      destruct (createIssueMode_calls i w r) as (_ & K2).
      destruct (K2 _ _ E) as (C2 & _). rewrite E, C2. cbn [fst snd].
      destruct (sharedTail_answered i w r k (Some (latestPrTitle r)) W Tk Ho) as [S1 S2].
      split; [exact S1|]. split; [reflexivity|].
      intros N. apply app_eq_nil in N. destruct N as [_ N].
      apply app_eq_nil in N. destruct N as [_ N]. exact (S2 N).
    - cbn [ret fst snd].
      destruct (sharedTail_answered i w r (key r) (issueTitle r) W Hr Ho) as [S1 S2].
      destruct (sharedTail_calls i w r (key r) (issueTitle r)) as [C3 _].
      split; [exact S1|]. split; [cbn; exact C3|].
      intros N. apply app_eq_nil in N. destruct N as [_ N].
      apply app_eq_nil in N. destruct N as [_ N]. exact (S2 N). }
  destruct Hmain as (M1 & M2 & M3).
  destruct (run_main_trace i w) as (Ru & Rc & _).
  assert (Hout : snd (run i w) = Completed).
  { unfold run. destruct (main i w) as [calls [u|h]]; [reflexivity | discriminate M1]. }
  split; [exact Hout|]. split; [now rewrite Rc|].
  assert (Hone : exists t b, updates (fst (run i w)) = [GitUpdatePR t b]).
  { rewrite Ru. revert M3. unfold main.
    rewrite bind_trace, updates_app.
    destruct (resolve_cases i w p latest Hp Hg) as (U1 & _ & _). rewrite U1.
    destruct (snd (resolve i w)) as [r|h]; [|intros N; now elim N].
    rewrite Hw, Ha, bind_trace, updates_app.
    destruct (isCreateIssue i).
    - destruct (createIssueMode_calls i w r) as (U2 & _). rewrite U2.
      destruct (snd (createIssueMode i w r)) as [ki|h]; [|intros N; now elim N].
      destruct (sharedTail_calls i w r (fst ki) (snd ki)) as (_ & [U3 | (U3 & _)]);
        rewrite U3; [intros N; now elim N | intros _; cbn [app]; eauto].
    - cbn [ret fst snd]. change (updates []) with (@nil Call).
      destruct (sharedTail_calls i w r (key r) (issueTitle r)) as (_ & [U3 | (U3 & _)]);
        rewrite U3; [intros N; now elim N | intros _; cbn [app]; eauto]. }
  destruct Hone as (t & b & Hone).
  assert (Hin : In (GitUpdatePR t b) (fst (run i w))).
  { apply in_updates. rewrite Hone. left. reflexivity. }
  destruct (Form t b Hin) as (k & s & Tk & Pc & Eb & Et & Ek).
  exists k, s. subst t b. repeat split; assumption.
Qed.


Lemma shared_tail_update_witness :
  snd (run Sample.createIssue (Sample.world Sample.untitledEvent (Ok None))) = Completed /\
  justCreated (fst (run Sample.createIssue (Sample.world Sample.untitledEvent (Ok None))))
    = isCreateIssue Sample.createIssue /\
  exists k s,
    truthyOpt k = true /\
    In (JiraPostComment k (html_url Sample.untitledEvent))
       (fst (run Sample.createIssue (Sample.world Sample.untitledEvent (Ok None)))) /\
    updates (fst (run Sample.createIssue (Sample.world Sample.untitledEvent (Ok None)))) =
      [GitUpdatePR
         (if justCreated
               (fst (run Sample.createIssue (Sample.world Sample.untitledEvent (Ok None))))
             || negb (isFound (found (freshTitle (Some "login") Sample.untitledEvent)))
          then Some (TitleComposer (freshTitle (Some "login") Sample.untitledEvent) k)
          else None)
         (Some (prependLink
                  (linkByTitle (in_host Sample.createIssue) k
                     (found (freshTitle (Some "login") Sample.untitledEvent)) s)
                  (body Sample.untitledEvent)))] /\
    (if justCreated
          (fst (run Sample.createIssue (Sample.world Sample.untitledEvent (Ok None))))
     then exists u,
            postIssue (Sample.world Sample.untitledEvent (Ok None))
              (freshTitle (Some "login") Sample.untitledEvent) u = Ok k
     else k = resolvedKey (Some "login") Sample.untitledEvent).
Proof.
  apply (proj2 (shared_tail_update Sample.createIssue
                  (Sample.world Sample.untitledEvent (Ok None)) Sample.untitledEvent
                  (Some "login") eq_refl eq_refl eq_refl eq_refl)).
  - constructor; intros; cbn; eauto.
  - reflexivity.
  - repeat split.
Defined.

(** * Further properties of [main] *)

(** ** The key resolver *)

(** X1.  A match of the pattern in the title decides the key: it is the one
    group of the match, it is not empty, and the branch is not looked at. *)
Theorem title_match_decides_key (t : string) (l : list value) :
  found t = Some l ->
  exists k, l = [Some k] /\ truthy k = true /\
            forall branch, KeyResolver t branch = Some k.
Proof.
  intros H. destruct (found_key _ _ H) as (k & E & Hk). exists k.
  split; [exact E|]. split; [exact Hk|]. intros branch.
  destruct (KeyResolver_title t branch l H) as [-> _]. rewrite E. reflexivity.
Qed.

Lemma title_match_decides_key_witness :
  exists k, [Some "AB-42"] = [Some k] /\ truthy k = true /\
            forall branch, KeyResolver "fix: AB-42 login" branch = Some k.
Proof.
  apply (title_match_decides_key "fix: AB-42 login" [Some "AB-42"]). reflexivity.
Defined.

(** X2.  When the pattern finds nothing in the title and matches the
    branch, the key is the group of the match in the branch. *)
Theorem branch_key_when_title_silent (t branch : string) (l : list value) :
  found t = None ->
  found branch = Some l ->
  exists k, l = [Some k] /\ truthy k = true /\ KeyResolver t branch = Some k.
Proof.
  intros Ht Hb. destruct (found_key _ _ Hb) as (k & E & Hk). exists k.
  split; [exact E|]. split; [exact Hk|].
  rewrite (KeyResolver_branch _ _ Ht), Hb, E. reflexivity.
Qed.

Lemma branch_key_when_title_silent_witness :
  exists k, [Some "AB-42"] = [Some k] /\ truthy k = true /\
            KeyResolver "login" "feature/1-AB-42" = Some k.
Proof.
  apply (branch_key_when_title_silent "login" "feature/1-AB-42" [Some "AB-42"]);
    reflexivity.
Defined.

(** ** The description edit *)

(** X3.  With an anchor pattern that compiles, the edit of lines 126-138 is:
    the link and a newline before the body when the pattern does not match;
    for a first match at [[i, j)], the body up to [j], then the link after a
    space when [0 < i] and the link followed by a newline when [i = 0], then
    the rest of the body. *)
Theorem appendDesc_anchor (w : World) (anchor b link : string) (re : regex) :
  truthy anchor = true ->
  newRegExp w anchor = Ok re ->
  appendDesc w anchor (Some b) link =
    match exec re b with
    | None => Ok (link ++ newline ++ b)
    | Some (i, y) =>
        Ok (substring 0 (endIndex y) b
              ++ (if (i =? 0)%nat then link ++ newline else " " ++ link)
              ++ substring (endIndex y) (String.length b - endIndex y) b)
    end.
Proof.
  intros Ha Hc. destruct (exec re b) as [[i y]|] eqn:He.
  - destruct i as [|i].
    + rewrite (appendDesc_anchor_at_start _ _ _ _ _ _ Ha Hc He).
      cbn [Nat.eqb]. now rewrite append_assoc.
    + destruct (appendDesc_after_anchor w anchor b link re (S i) y Ha Hc He
                  ltac:(lia)) as (_ & _ & E).
      rewrite E. reflexivity.
  - apply (unmatched_anchor_prepends _ _ _ _ _ Hc He).
Qed.

Lemma appendDesc_anchor_witness :
  appendDesc (Sample.world Sample.anchoredEvent (Ok None)) "Ticket:"
     (Some "See Ticket: rest") "[AB-42](https://jira.example/browse/AB-42)" =
    match exec Sample.ticketAnchor "See Ticket: rest" with
    | None => Ok ("[AB-42](https://jira.example/browse/AB-42)" ++ newline ++ "See Ticket: rest")
    | Some (i, y) =>
        Ok (substring 0 (endIndex y) "See Ticket: rest"
              ++ (if (i =? 0)%nat
                  then "[AB-42](https://jira.example/browse/AB-42)" ++ newline
                  else " " ++ "[AB-42](https://jira.example/browse/AB-42)")
              ++ substring (endIndex y)
                   (String.length "See Ticket: rest" - endIndex y) "See Ticket: rest")
    end.
Proof.
  apply (appendDesc_anchor (Sample.world Sample.anchoredEvent (Ok None)) "Ticket:"
           "See Ticket: rest" "[AB-42](https://jira.example/browse/AB-42)"
           Sample.ticketAnchor); reflexivity.
Defined.

(** X4.  Whenever the edit of lines 126-138 returns, the body is kept whole:
    the result is the body cut at some offset [j], with the link and exactly
    one separator (a space before it or a newline after it) in between. *)
Theorem appendDesc_keeps_body (w : World) (anchor b link newBody : string) :
  appendDesc w anchor (Some b) link = Ok newBody ->
  exists j before after,
    (j <= String.length b)%nat /\
    substring 0 j b ++ substring j (String.length b - j) b = b /\
    newBody = substring 0 j b ++ before ++ link ++ after
                ++ substring j (String.length b - j) b /\
    ((before = " " /\ after = "") \/ (before = "" /\ after = newline)).
Proof.
  intros H.
  assert (Top : appendDesc w anchor (Some b) link = Ok (link ++ newline ++ b) ->
          exists j before after,
            (j <= String.length b)%nat /\
            substring 0 j b ++ substring j (String.length b - j) b = b /\
            newBody = substring 0 j b ++ before ++ link ++ after
                        ++ substring j (String.length b - j) b /\
            ((before = " " /\ after = "") \/ (before = "" /\ after = newline))).
  { intros E. rewrite E in H. inversion H; subst newBody.
    exists 0%nat, "", newline. rewrite substring_zero, Nat.sub_0_r, substring_whole.
    repeat split; [lia | auto]. }
  destruct (truthy anchor) eqn:Ha.
  - destruct (newRegExp w anchor) as [re|e] eqn:Hc.
    + destruct (exec re b) as [[i y]|] eqn:He.
      * pose proof (exec_bounds _ _ _ _ He) as B. exists (endIndex y).
        destruct i as [|i].
        -- rewrite (appendDesc_anchor_at_start _ _ _ _ _ _ Ha Hc He) in H.
           inversion H; subst newBody. exists "", newline. split; [lia|].
           split; [apply substring_split; lia|]. split; [reflexivity | auto].
        -- destruct (appendDesc_after_anchor w anchor b link re (S i) y Ha Hc He
                       ltac:(lia)) as (_ & _ & E).
           rewrite E in H. inversion H; subst newBody. exists " ", "". split; [lia|].
           split; [apply substring_split; lia|]. split; [reflexivity | auto].
      * apply Top. apply (unmatched_anchor_prepends _ _ _ _ _ Hc He).
    + unfold appendDesc, insertionPoint in H. rewrite Ha, Hc in H. discriminate.
  - apply Top. unfold appendDesc, insertionPoint. rewrite Ha, Z.eqb_refl.
    f_equal. apply insert_at_top.
Qed.

Lemma appendDesc_keeps_body_witness :
  exists j before after,
    (j <= String.length "See Ticket: rest")%nat /\
    substring 0 j "See Ticket: rest"
      ++ substring j (String.length "See Ticket: rest" - j) "See Ticket: rest"
      = "See Ticket: rest" /\
    "See Ticket: [AB-42](https://jira.example/browse/AB-42) rest"
      = substring 0 j "See Ticket: rest" ++ before
          ++ "[AB-42](https://jira.example/browse/AB-42)" ++ after
          ++ substring j (String.length "See Ticket: rest" - j) "See Ticket: rest" /\
    ((before = " " /\ after = "") \/ (before = "" /\ after = newline)).
Proof.
  apply (appendDesc_keeps_body (Sample.world Sample.anchoredEvent (Ok None)) "Ticket:"
           "See Ticket: rest" "[AB-42](https://jira.example/browse/AB-42)"
           "See Ticket: [AB-42](https://jira.example/browse/AB-42) rest").
  reflexivity.
Defined.

(** X5.  The append-only mode on a nil body, or with an anchor pattern that
    does not compile, throws before it makes any call: the pull request is
    not updated. *)
Theorem append_only_fails_before_update (i : Inputs) (w : World) (r : Resolved) :
  body (pr r) = None \/
    (truthy (in_appendDescAfterRegex i) = true /\
     exists e, newRegExp w (in_appendDescAfterRegex i) = Err e) ->
  fst (appendDescMode i w r) = [] /\
  exists e, snd (appendDescMode i w r) = inr (Throw e).
Proof.
  intros H. unfold appendDescMode, appendDesc, insertionPoint.
  destruct (body (pr r)) as [b|].
  - destruct H as [H | (Ha & e & He)]; [discriminate|].
    rewrite Ha, He. split; [reflexivity | eexists; reflexivity].
  - destruct (truthy (in_appendDescAfterRegex i));
      (split; [reflexivity | eexists; reflexivity]).
Qed.

Lemma append_only_fails_before_update_witness :
  fst (appendDescMode (Sample.appendOnly "(")
         (Sample.world Sample.anchoredEvent (Ok None))
         (mkResolved Sample.anchoredEvent "Fix login bug" None None None)) = [] /\
  exists e,
    snd (appendDescMode (Sample.appendOnly "(")
           (Sample.world Sample.anchoredEvent (Ok None))
           (mkResolved Sample.anchoredEvent "Fix login bug" None None None))
    = inr (Throw e).
Proof.
  apply (append_only_fails_before_update (Sample.appendOnly "(")
           (Sample.world Sample.anchoredEvent (Ok None))
           (mkResolved Sample.anchoredEvent "Fix login bug" None None None)).
  right. split; [reflexivity | eexists; reflexivity].
Defined.

(** ** The webhook mode on an open pull request (lines 95-123) *)

(** X6.  With a webhook configured, a key resolved and the pull request not
    merged, the run posts to the webhook, updates the pull request (the
    link built from the fetched summary at the top of the body, and the
    title "TITLE [KEY]" only when the pattern found nothing in the title),
    comments on the ticket only when both credentials are configured, and
    leaves with exit code 0. *)
Theorem webhook_open_run (i : Inputs) (w : World) (p : PullRequest)
    (latest s : value) :
  pull_request w = Some p ->
  merged p = false ->
  truthy (in_webhook i) = true ->
  getPull w (number p) = Ok latest ->
  truthyOpt (resolvedKey latest p) = true ->
  getIssueSummary w (resolvedKey latest p) = Ok s ->
  request w (in_webhook i) [resolvedKey latest p] = Ok tt ->
  updatePR w (webhookTitle p latest) (webhookBody i p latest s) = Ok tt ->
  postComment w (resolvedKey latest p) (html_url p) = Ok tt ->
  run i w =
    ((resolveCalls i p (resolvedKey latest p)
        ++ [Request (in_webhook i) [resolvedKey latest p]; CoreInfo "webhook complete";
            GitUpdatePR (webhookTitle p latest) (webhookBody i p latest s)]
        ++ webhookComment i p (resolvedKey latest p))%list,
     Exited 0).
Proof.
  unfold webhookTitle, webhookBody, webhookComment, fetchedSummary, resolvedKey.
  set (k := KeyResolver (freshTitle latest p) (head_ref p)).
  intros Hp Hm Hw Hg Hk Hs Hr Hu Hc.
  unfold run, main. rewrite (resolve_ok i w p latest s Hp Hg Hs). fold k.
  rewrite bind_done, Hw. unfold webhookMode, resolveCalls.
  cbn [key pr foundInTitle latestPrTitle issueTitle]. cbv zeta.
  rewrite Hu, Hk, Hm, Hr.
  destruct (credentials i); cbn [when negb andb]; [rewrite Hc|]; reflexivity.
Qed.

Lemma webhook_open_run_witness :
  run (Sample.withCredentials (Sample.webhookOnMerge ""))
      (Sample.world Sample.branchKeyedEvent (Ok (Some "Login bug")))
  = ([OctokitGetPull 7; detected (Some "AB-42"); JiraGetIssueSummary (Some "AB-42");
      Request "https://hooks.example/jira" [Some "AB-42"];
      CoreInfo "webhook complete";
      GitUpdatePR (Some "login [AB-42]")
        (Some ("[AB-42: Login bug](https://jira.example/browse/AB-42)" ++ newline ++ "text"));
      JiraPostComment (Some "AB-42") "https://github.example/o/r/pull/7"],
     Exited 0).
Proof.
  apply (webhook_open_run (Sample.withCredentials (Sample.webhookOnMerge ""))
           (Sample.world Sample.branchKeyedEvent (Ok (Some "Login bug")))
           Sample.branchKeyedEvent (Some "login") (Some "Login bug"));
    reflexivity.
Defined.

(** ** What a mode never does *)

Section Only.

Variable P : Call -> bool.

Lemma only_bind {A B} (m : M A) (f : A -> M B) :
  only P m -> (forall a, snd m = inl a -> only P (f a)) -> only P (bind m f).
Proof.
  unfold only, bind. intros Hm Hf. destruct (snd m) as [a|h] eqn:E; cbn [fst].
  - rewrite forallb_app, Hm. apply (Hf a eq_refl).
  - exact Hm.
Qed.

Lemma only_ret {A} (a : A) : only P (ret a).
Proof. reflexivity. Qed.

Lemma only_exit {A} (c : Z) : only P (@exit A c).
Proof. reflexivity. Qed.

Lemma only_throw {A} (e : string) : only P (@throw A e).
Proof. reflexivity. Qed.

Lemma only_lift {A} (r : Res A) : only P (lift r).
Proof. destruct r; reflexivity. Qed.

Lemma only_tell (c : Call) : P c = true -> only P (tell c).
Proof. unfold only. cbn. intros ->. reflexivity. Qed.

Lemma only_await {A} (c : Call) (r : Res A) : P c = true -> only P (await c r).
Proof.
  intros H. unfold await. apply only_bind; [now apply only_tell | intros; apply only_lift].
Qed.

Lemma only_when (b : bool) (m : M unit) : (b = true -> only P m) -> only P (when b m).
Proof. destruct b; cbn; auto using only_ret. Qed.

Lemma only_catch {A} (m : M A) (h : string -> M A) :
  only P m -> (forall e, only P (h e)) -> only P (catch m h).
Proof.
  unfold only, catch. intros Hm Hh. destruct (snd m) as [a|[c|e]]; auto.
  cbn [fst]. rewrite forallb_app, Hm. apply Hh.
Qed.

End Only.

(** One step through a computation, call by call. *)
Ltac only_step :=
  first
    [ apply only_ret | apply only_exit | apply only_throw | apply only_lift
    | apply only_tell; reflexivity
    | apply only_await; reflexivity
    | apply only_when; intros ?
    | apply only_catch; [|intros ?]
    | apply only_bind; [|intros ? ?] ].

Ltac only_cases :=
  match goal with
  | |- only _ (if ?b then _ else _) => destruct b eqn:?
  | |- only _ (match ?x with _ => _ end) => destruct x eqn:?
  end.

Lemma only_resolve (P : Call -> bool) (i : Inputs) (w : World) :
  (forall m, P (CoreInfo m) = true) -> (forall m, P (CoreSetFailed m) = true) ->
  (forall n, P (OctokitGetPull n) = true) -> (forall k, P (JiraGetIssueSummary k) = true) ->
  only P (resolve i w).
Proof.
  intros Hi Hf Hg Hs. unfold resolve, info.
  repeat first
    [ only_cases
    | apply only_tell; auto | apply only_await; auto
    | apply only_ret | apply only_throw
    | apply only_bind; [|intros ? ?] ].
Qed.

Lemma only_run (P : Call -> bool) (i : Inputs) (w : World) :
  (forall m, P (CoreSetFailed m) = true) ->
  only P (main i w) -> forallb P (fst (run i w)) = true.
Proof.
  unfold only, run. intros Hf. destruct (main i w) as [t [u|[c|e]]]; cbn; auto.
  intros H. rewrite forallb_app, H. cbn. now rewrite Hf.
Qed.

(** X7.  With a webhook configured, whatever the flags and whatever the
    collaborators answer, a run makes no call beyond the lookups of lines
    50-75, the webhook post, the fix-version calls, one kind of update and
    the comment: it creates no ticket, moves none to a sprint, applies no
    transition and assigns nobody. *)
Theorem webhook_mode_calls (i : Inputs) (w : World) :
  truthy (in_webhook i) = true ->
  forallb webhookCall (fst (run i w)) = true.
Proof.
  intros Hw. apply only_run; [reflexivity|]. unfold main.
  apply only_bind; [apply only_resolve; reflexivity | intros r _].
  rewrite Hw. unfold webhookMode, info. repeat only_step.
Qed.

Lemma webhook_mode_calls_witness :
  forallb webhookCall
    (fst (run (Sample.withCredentials (Sample.webhookOnMerge "true"))
            (Sample.world (Sample.keyedEvent (Some "text") false) (Ok None)))) = true.
Proof.
  apply (webhook_mode_calls (Sample.withCredentials (Sample.webhookOnMerge "true"))
           (Sample.world (Sample.keyedEvent (Some "text") false) (Ok None))).
  reflexivity.
Defined.

(** X8.  In the append-only mode (no webhook), whatever the other flags and
    whatever the collaborators answer, a run makes no call beyond the
    lookups of lines 50-75 and an update that carries a body and no title:
    the title and the ticket are left alone. *)
Theorem append_only_mode_calls (i : Inputs) (w : World) :
  truthy (in_webhook i) = false ->
  isOnlyAppendDesc i = true ->
  forallb appendOnlyCall (fst (run i w)) = true.
Proof.
  intros Hw Ha. apply only_run; [reflexivity|]. unfold main.
  apply only_bind; [apply only_resolve; reflexivity | intros r _].
  rewrite Hw, Ha. unfold appendDescMode, info. repeat only_step.
Qed.

Lemma append_only_mode_calls_witness :
  forallb appendOnlyCall
    (fst (run (Sample.appendOnly "Ticket:") (Sample.world Sample.anchoredEvent (Ok None))))
  = true.
Proof.
  apply (append_only_mode_calls (Sample.appendOnly "Ticket:")
           (Sample.world Sample.anchoredEvent (Ok None))); reflexivity.
Defined.

(** ** The create-issue mode (lines 145-169) *)

(** X9.  In the create-issue mode a missing [project] or [type] input fails
    the run right after the lookups of lines 50-75, with the [Error] of line
    146 or 147 (reported as "Error: Creating issue need project" or
    "Error: Creating issue need type"), also when a key was resolved: nothing
    is created, commented or updated. *)
Theorem create_issue_needs_project_and_type (i : Inputs) (w : World)
    (p : PullRequest) (latest s : value) :
  pull_request w = Some p ->
  getPull w (number p) = Ok latest ->
  getIssueSummary w (resolvedKey latest p) = Ok s ->
  truthy (in_webhook i) = false ->
  isOnlyAppendDesc i = false ->
  isCreateIssue i = true ->
  truthy (in_project i) && truthy (in_type i) = false ->
  run i w =
    ((resolveCalls i p (resolvedKey latest p) ++ [CoreSetFailed (configError i)])%list,
     Failed (configError i)).
Proof.
  unfold resolvedKey, configError. intros Hp Hg Hs Hw Ha Hc He.
  unfold run, main. rewrite (resolve_ok i w p latest s Hp Hg Hs).
  rewrite bind_done, Hw, Ha, Hc. unfold createIssueMode.
  destruct (truthy (in_project i)); [destruct (truthy (in_type i)); [discriminate|]|];
    cbn; rewrite app_nil_r; reflexivity.
Qed.

Lemma create_issue_needs_project_and_type_witness :
  run (Scenario.create "AB" "" "")
      (Scenario.world (Some (Sample.keyedEvent (Some "text") false)) (Ok None) [] true)
  = ([OctokitGetPull 7; detected (Some "AB-42"); JiraGetIssueSummary (Some "AB-42");
      CoreSetFailed "Error: Creating issue need type"],
     Failed "Error: Creating issue need type").
Proof.
  apply (create_issue_needs_project_and_type (Scenario.create "AB" "" "")
           (Scenario.world (Some (Sample.keyedEvent (Some "text") false)) (Ok None) [] true)
           (Sample.keyedEvent (Some "text") false) None (Some "Login bug"));
    reflexivity.
Defined.

(** X10.  In the create-issue mode with [project] and [type] configured, a
    key resolved from the title or the branch ends the run at line 150 with
    exit code 0: no ticket is created and the tail is not run (no
    transition, no comment, no update of the pull request). *)
Theorem create_issue_skips_when_key (i : Inputs) (w : World)
    (p : PullRequest) (latest s : value) :
  pull_request w = Some p ->
  getPull w (number p) = Ok latest ->
  getIssueSummary w (resolvedKey latest p) = Ok s ->
  truthy (in_webhook i) = false ->
  isOnlyAppendDesc i = false ->
  isCreateIssue i = true ->
  truthy (in_project i) = true ->
  truthy (in_type i) = true ->
  truthyOpt (resolvedKey latest p) = true ->
  run i w =
    ((resolveCalls i p (resolvedKey latest p)
        ++ [CoreInfo "Jira issue detected in PR title/branch"])%list,
     Exited 0).
Proof.
  unfold resolvedKey. intros Hp Hg Hs Hw Ha Hc Hj Ht Hk.
  unfold run, main. rewrite (resolve_ok i w p latest s Hp Hg Hs).
  rewrite bind_done, Hw, Ha, Hc. unfold createIssueMode.
  cbn [key foundInTitle]. rewrite Hj, Ht, Hk, orb_true_r. reflexivity.
Qed.

Lemma create_issue_skips_when_key_witness :
  run (Scenario.create "AB" "Task" "")
      (Scenario.world (Some Sample.branchKeyedEvent) (Ok None) [] true)
  = ([OctokitGetPull 7; detected (Some "AB-42"); JiraGetIssueSummary (Some "AB-42");
      CoreInfo "Jira issue detected in PR title/branch"],
     Exited 0).
Proof.
  apply (create_issue_skips_when_key (Scenario.create "AB" "Task" "")
           (Scenario.world (Some Sample.branchKeyedEvent) (Ok None) [] true)
           Sample.branchKeyedEvent None (Some "Login bug"));
    reflexivity.
Defined.

(** X11.  The lookup of the user by name is best effort (line 158): when it
    is rejected, the error is logged and the ticket is created all the same,
    with no assignee, and its key and the title of the pull request go on to
    the tail. *)
Theorem create_issue_survives_user_lookup (i : Inputs) (w : World) (r : Resolved)
    (name newKey : value) (e : string) :
  truthy (in_project i) = true ->
  truthy (in_type i) = true ->
  isFound (foundInTitle r) = false ->
  truthyOpt (key r) = false ->
  truthy (in_board i) = false ->
  getUser w (actor w) = Ok name ->
  getUserIdByFuzzyName w name = Err e ->
  postIssue w (latestPrTitle r) None = Ok newKey ->
  createIssueMode i w r =
    ([CoreInfo "No jira issue detected in PR title/branch";
      OctokitGetUser (actor w); JiraGetUserIdByFuzzyName name; CoreInfo e;
      JiraPostIssue (latestPrTitle r) None],
     inl (newKey, Some (latestPrTitle r))).
Proof.
  intros Hj Ht Hf Hk Hb Hu Hz Hi. unfold createIssueMode.
  rewrite Hj, Ht, Hf, Hk, Hb, Hu. cbn [when negb orb].
  rewrite !bind_ret. unfold info at 1. unfold tell at 1. rewrite bind_done.
  rewrite bind_await_ok. cbn [fst snd app]. rewrite Hz.
  unfold catch. cbn [await tell lift bind fst snd throw app info ret].
  rewrite Hi. reflexivity.
Qed.

Lemma create_issue_survives_user_lookup_witness :
  createIssueMode (Scenario.create "AB" "Task" "")
    (Scenario.world (Some Sample.untitledEvent) (Err "no such user") [] true)
    (Scenario.unresolved Sample.untitledEvent)
  = ([CoreInfo "No jira issue detected in PR title/branch";
      OctokitGetUser "octocat"; JiraGetUserIdByFuzzyName (Some "Mona Lisa");
      CoreInfo "no such user"; JiraPostIssue "login" None],
     inl (Some "AB-100", Some "login")).
Proof.
  apply (create_issue_survives_user_lookup (Scenario.create "AB" "Task" "")
           (Scenario.world (Some Sample.untitledEvent) (Err "no such user") [] true)
           (Scenario.unresolved Sample.untitledEvent)
           (Some "Mona Lisa") (Some "AB-100") "no such user");
    reflexivity.
Defined.

(** X12.  With a board configured and no active sprint on it, line 166
    throws after the ticket was created: the mode fails with the ticket in
    place and nothing moved. *)
Theorem create_issue_without_active_sprint (i : Inputs) (w : World) (r : Resolved)
    (name userId newKey : value) :
  truthy (in_project i) = true ->
  truthy (in_type i) = true ->
  isFound (foundInTitle r) = false ->
  truthyOpt (key r) = false ->
  truthy (in_board i) = true ->
  getUser w (actor w) = Ok name ->
  getUserIdByFuzzyName w name = Ok userId ->
  postIssue w (latestPrTitle r) userId = Ok newKey ->
  getSprints w "active" = Ok [] ->
  fst (createIssueMode i w r) =
    [CoreInfo "No jira issue detected in PR title/branch";
     OctokitGetUser (actor w); JiraGetUserIdByFuzzyName name;
     JiraPostIssue (latestPrTitle r) userId; JiraGetSprints "active"] /\
  exists e, snd (createIssueMode i w r) = inr (Throw e).
Proof.
  intros Hj Ht Hf Hk Hb Hu Hz Hi Hs. unfold createIssueMode.
  rewrite Hj, Ht, Hf, Hk, Hb, Hu. cbn [when negb orb].
  rewrite !bind_ret. unfold info at 1. unfold tell at 1. rewrite bind_done.
  rewrite bind_await_ok. cbn [fst snd app]. rewrite Hz.
  unfold catch. cbn [await tell lift bind fst snd throw app info ret].
  rewrite Hi. cbn [fst snd app]. rewrite Hs. cbn.
  split; [reflexivity | eexists; reflexivity].
Qed.

Lemma create_issue_without_active_sprint_witness :
  fst (createIssueMode (Scenario.create "AB" "Task" "12")
         (Scenario.world (Some Sample.untitledEvent) (Ok (Some "u-1")) [] true)
         (Scenario.unresolved Sample.untitledEvent)) =
    [CoreInfo "No jira issue detected in PR title/branch";
     OctokitGetUser "octocat"; JiraGetUserIdByFuzzyName (Some "Mona Lisa");
     JiraPostIssue "login" (Some "u-1"); JiraGetSprints "active"] /\
  exists e,
    snd (createIssueMode (Scenario.create "AB" "Task" "12")
           (Scenario.world (Some Sample.untitledEvent) (Ok (Some "u-1")) [] true)
           (Scenario.unresolved Sample.untitledEvent)) = inr (Throw e).
Proof.
  apply (create_issue_without_active_sprint (Scenario.create "AB" "Task" "12")
           (Scenario.world (Some Sample.untitledEvent) (Ok (Some "u-1")) [] true)
           (Scenario.unresolved Sample.untitledEvent)
           (Some "Mona Lisa") (Some "u-1") (Some "AB-100"));
    reflexivity.
Defined.

(** ** The shared tail (lines 171-216) *)

(** X13.  The tail applies a transition at most to the key it works on, never
    one with an empty name, and the name follows lines 177-181: the
    [otherAssignedTransition] input when it is set and the ticket was not
    created by the account of the action, the [transition] input
    otherwise. *)
Theorem transition_follows_policy (i : Inputs) (w : World) (r : Resolved)
    (k s k' : value) (t : string) :
  In (JiraPostTransitIssue k' t) (fst (sharedTail i w r k s)) ->
  k' = k /\ truthy t = true /\
  exists me, t = TransitionPolicy i me /\
             (truthy (in_otherAssignedTransition i) = true ->
              isMeCreatedIssue w k = Ok me).
Proof.
  unfold sharedTail, TransitionPolicy.
  generalize (html_url (pr r)). intros url.
  match goal with
  | |- context [await (GitUpdatePR ?a ?b)] => generalize a; generalize b
  end.
  intros newBody newTitle.
  destruct (truthyOpt k); [|cbn; intros [H|[]]; discriminate].
  destruct (isOnlyTransition i), (isAssignToReporter i),
    (truthy (in_otherAssignedTransition i)) eqn:Ho;
    cbn [when negb]; rewrite !bind_ret;
    try (destruct (isMeCreatedIssue w k) as [[|]|e] eqn:Hme;
         [| |cbn; intros [H|[]]; discriminate];
         rewrite bind_assoc, bind_await_ok, bind_ret; cbn [negb fst snd]);
    match goal with
    | |- context [when (truthy ?x)] => destruct (truthy x) eqn:Ht
    end;
    unfold await, lift; cbn; repeat oracle;
    intros H;
    repeat match type of H with
           | _ \/ _ => destruct H as [H|H]
           | False => destruct H
           | _ = _ => discriminate H
           end;
    inversion H; subst;
    (split; [reflexivity|]; split; [assumption|]);
    first [ exists true; split; [reflexivity | intros; congruence]
          | exists false; split; [reflexivity | intros; congruence] ].
Qed.

Lemma transition_follows_policy_witness :
  Some "AB-42" = Some "AB-42" /\ truthy "In Review" = true /\
  exists me,
    "In Review" = TransitionPolicy (Scenario.sync "In Progress" "In Review" "" "") me /\
    (truthy (in_otherAssignedTransition (Scenario.sync "In Progress" "In Review" "" ""))
       = true ->
     isMeCreatedIssue
       (Scenario.world (Some (Sample.keyedEvent (Some "text") false)) (Ok None) [] false)
       (Some "AB-42") = Ok me).
Proof.
  apply (transition_follows_policy (Scenario.sync "In Progress" "In Review" "" "")
           (Scenario.world (Some (Sample.keyedEvent (Some "text") false)) (Ok None) [] false)
           (mkResolved (Sample.keyedEvent (Some "text") false) "fix: AB-42 login"
              (found "fix: AB-42 login") (Some "AB-42") (Some "Login bug"))
           (Some "AB-42") (Some "Login bug") (Some "AB-42") "In Review").
  vm_compute. auto.
Defined.

(** X14.  With [isOnlyTransition] set the tail stops at line 188: whatever
    the collaborators answer it looks up no reporter, assigns nobody, posts
    no comment and does not update the pull request, and it never runs to
    the end of [main]. *)
Theorem only_transition_stops (i : Inputs) (w : World) (r : Resolved) (k s : value) :
  isOnlyTransition i = true ->
  existsb afterTransition (fst (sharedTail i w r k s)) = false /\
  (forall u, snd (sharedTail i w r k s) <> inl u).
Proof.
  intros Ho. unfold sharedTail. rewrite Ho.
  generalize (html_url (pr r)). intros url.
  match goal with
  | |- context [await (GitUpdatePR ?a ?b)] => generalize a; generalize b
  end.
  intros newBody newTitle.
  destruct (truthyOpt k); [|split; [reflexivity | discriminate]].
  destruct (isAssignToReporter i), (truthy (in_otherAssignedTransition i));
    cbn [when negb]; rewrite !bind_ret;
    try (destruct (isMeCreatedIssue w k) as [[|]|e];
         [| |split; [reflexivity | discriminate]];
         rewrite bind_assoc, bind_await_ok, bind_ret; cbn [negb fst snd]);
    match goal with
    | |- context [when (truthy ?x)] => destruct (truthy x)
    end;
    unfold await, lift; cbn; repeat oracle; (split; [reflexivity | discriminate]).
Qed.

Lemma only_transition_stops_witness :
  existsb afterTransition
    (fst (sharedTail (Scenario.sync "In Progress" "" "true" "true")
            (Scenario.world (Some (Sample.keyedEvent (Some "text") false)) (Ok None) [] true)
            (mkResolved (Sample.keyedEvent (Some "text") false) "fix: AB-42 login"
               (found "fix: AB-42 login") (Some "AB-42") (Some "Login bug"))
            (Some "AB-42") (Some "Login bug"))) = false /\
  (forall u,
     snd (sharedTail (Scenario.sync "In Progress" "" "true" "true")
            (Scenario.world (Some (Sample.keyedEvent (Some "text") false)) (Ok None) [] true)
            (mkResolved (Sample.keyedEvent (Some "text") false) "fix: AB-42 login"
               (found "fix: AB-42 login") (Some "AB-42") (Some "Login bug"))
            (Some "AB-42") (Some "Login bug")) <> inl u).
Proof.
  apply (only_transition_stops (Scenario.sync "In Progress" "" "true" "true")
           (Scenario.world (Some (Sample.keyedEvent (Some "text") false)) (Ok None) [] true)
           (mkResolved (Sample.keyedEvent (Some "text") false) "fix: AB-42 login"
              (found "fix: AB-42 login") (Some "AB-42") (Some "Login bug"))
           (Some "AB-42") (Some "Login bug")).
  reflexivity.
Defined.

(** X15.  The default mode, every collaborator answering: after the lookups
    of lines 50-75 the run asks who created the ticket only when
    [otherAssignedTransition] is set, applies the transition of lines
    177-181 when its name is not empty, assigns the ticket to its reporter
    when [isAssignToReporter] is set, comments on the ticket, and last
    updates the pull request; [main] then returns. *)
Theorem full_sync_run (i : Inputs) (w : World) (p : PullRequest)
    (latest s : value) (me : bool) (reporter : string) :
  pull_request w = Some p ->
  getPull w (number p) = Ok latest ->
  truthy (in_webhook i) = false ->
  isOnlyAppendDesc i = false ->
  isCreateIssue i = false ->
  isOnlyTransition i = false ->
  truthyOpt (resolvedKey latest p) = true ->
  getIssueSummary w (resolvedKey latest p) = Ok s ->
  isMeCreatedIssue w (resolvedKey latest p) = Ok me ->
  postTransitIssue w (resolvedKey latest p) (TransitionPolicy i me) = Ok tt ->
  getIssueReporterId w (resolvedKey latest p) = Ok reporter ->
  putAssignIssue w (resolvedKey latest p) reporter = Ok tt ->
  postComment w (resolvedKey latest p) (html_url p) = Ok tt ->
  updatePR w (syncTitle i p latest) (syncBody i p latest s) = Ok tt ->
  run i w =
    ((resolveCalls i p (resolvedKey latest p)
        ++ transitionCalls i (resolvedKey latest p) me
        ++ assignCalls i (resolvedKey latest p) reporter
        ++ [JiraPostComment (resolvedKey latest p) (html_url p);
            GitUpdatePR (syncTitle i p latest) (syncBody i p latest s);
            CoreInfo "New issue created"])%list,
     Completed).
Proof.
  unfold syncTitle, syncBody, transitionCalls, assignCalls, fetchedSummary,
    TransitionPolicy, resolvedKey.
  set (k := KeyResolver (freshTitle latest p) (head_ref p)).
  intros Hp Hg Hw Ha Hc Ho Hk Hs Hme Ht Hr Hpa Hpc Hu.
  unfold run, main. rewrite (resolve_ok i w p latest s Hp Hg Hs). fold k.
  rewrite bind_done, Hw, Ha, Hc, bind_ret. unfold sharedTail, resolveCalls.
  cbn [key pr foundInTitle latestPrTitle issueTitle fst snd]. cbv zeta.
  rewrite Hc in Hu. rewrite Hc.
  rewrite Hu, Ho, Hpc, Hme, Hr. rewrite Hk in *. cbn [negb when].
  rewrite !bind_ret.
  destruct (credentials i), (isAssignToReporter i),
    (truthy (in_otherAssignedTransition i));
    cbn [andb when negb]; rewrite ?bind_ret, ?bind_assoc, ?bind_await_ok;
    cbn [fst snd]; rewrite ?bind_ret;
    match goal with
    | |- context [when (truthy ?x)] => destruct (truthy x)
    end;
    cbn [when]; rewrite ?Ht, ?Hpa; reflexivity.
Qed.

Lemma full_sync_run_witness :
  run (Scenario.sync "In Progress" "In Review" "" "true")
      (Scenario.world (Some Sample.branchKeyedEvent) (Ok None) [] false)
  = ([OctokitGetPull 7; detected (Some "AB-42"); JiraGetIssueSummary (Some "AB-42");
      JiraIsMeCreatedIssue (Some "AB-42");
      JiraPostTransitIssue (Some "AB-42") "In Review";
      JiraGetIssueReporterId (Some "AB-42"); JiraPutAssignIssue (Some "AB-42") "u-2";
      JiraPostComment (Some "AB-42") "https://github.example/o/r/pull/7";
      GitUpdatePR (Some "login [AB-42]")
        (Some ("[AB-42](https://jira.example/browse/AB-42)" ++ newline ++ "text"));
      CoreInfo "New issue created"],
     Completed).
Proof.
  apply (full_sync_run (Scenario.sync "In Progress" "In Review" "" "true")
           (Scenario.world (Some Sample.branchKeyedEvent) (Ok None) [] false)
           Sample.branchKeyedEvent None (Some "Login bug") false "u-2");
    reflexivity.
Defined.

(** ** How a run ends *)

(** X16.  Without a pull request in the event, line 47 reports the trigger
    and line 53 then throws on [pr.number]: the run fails having called no
    collaborator at all. *)
Theorem no_pull_request_fails (i : Inputs) (w : World) :
  pull_request w = None ->
  exists e,
    run i w =
      ([CoreSetFailed "Only support pull request trigger"; CoreSetFailed e], Failed e).
Proof.
  intros H. unfold run, main, resolve. rewrite H. eexists. reflexivity.
Qed.

Lemma no_pull_request_fails_witness :
  exists e,
    run Sample.inputs (Scenario.world None (Ok None) [] true) =
      ([CoreSetFailed "Only support pull request trigger"; CoreSetFailed e], Failed e).
Proof.
  apply (no_pull_request_fails Sample.inputs (Scenario.world None (Ok None) [] true)).
  reflexivity.
Defined.

Section LeavesWithZero.

Lemma zero_bind {A B} (m : M A) (f : A -> M B) :
  leavesWithZero m -> (forall a, leavesWithZero (f a)) -> leavesWithZero (bind m f).
Proof.
  unfold leavesWithZero, bind. intros Hm Hf c.
  destruct (snd m) as [a|h] eqn:E; cbn [snd]; [apply Hf|].
  intros H. inversion H; subst. now apply Hm.
Qed.

Lemma zero_ret {A} (a : A) : leavesWithZero (ret a).
Proof. intros c H. discriminate H. Qed.

Lemma zero_throw {A} (e : string) : leavesWithZero (@throw A e).
Proof. intros c H. discriminate H. Qed.

Lemma zero_exit {A} : leavesWithZero (@exit A 0).
Proof. intros c H. inversion H. reflexivity. Qed.

Lemma zero_tell (c : Call) : leavesWithZero (tell c).
Proof. intros z H. discriminate H. Qed.

Lemma zero_lift {A} (r : Res A) : leavesWithZero (lift r).
Proof. destruct r; intros c H; discriminate H. Qed.

Lemma zero_await {A} (c : Call) (r : Res A) : leavesWithZero (await c r).
Proof. destruct r; intros z H; discriminate H. Qed.

Lemma zero_when (b : bool) (m : M unit) : leavesWithZero m -> leavesWithZero (when b m).
Proof. destruct b; cbn; auto using zero_ret. Qed.

Lemma zero_catch {A} (m : M A) (h : string -> M A) :
  leavesWithZero m -> (forall e, leavesWithZero (h e)) -> leavesWithZero (catch m h).
Proof.
  unfold leavesWithZero, catch. intros Hm Hh c.
  destruct (snd m) as [a|[z|e]] eqn:E; cbn [snd].
  - rewrite E. discriminate.
  - rewrite E. intros H. inversion H; subst. now apply Hm.
  - apply Hh.
Qed.

End LeavesWithZero.

Ltac zero_step :=
  first
    [ apply zero_ret | apply zero_exit | apply zero_throw | apply zero_lift
    | apply zero_tell | apply zero_await
    | apply zero_when
    | apply zero_catch; [|intros ?]
    | apply zero_bind; [|intros ?]
    | match goal with
      | |- leavesWithZero (if ?b then _ else _) => destruct b
      | |- leavesWithZero (match ?x with _ => _ end) => destruct x
      end ].

(** X17.  Whatever the inputs, the event and the answers of the
    collaborators, a run that leaves through [process.exit] leaves with code
    0: every other end is the return of [main] or a failure reported by
    line 219. *)
Theorem exit_code_is_zero (i : Inputs) (w : World) (c : Z) :
  snd (run i w) = Exited c -> c = 0%Z.
Proof.
  assert (Z : leavesWithZero (main i w)).
  { unfold main, resolve, webhookMode, appendDescMode, createIssueMode, sharedTail, info.
    repeat zero_step. }
  unfold run. specialize (Z c). destruct (main i w) as [t [u|[z|e]]]; cbn in *.
  - discriminate.
  - intros H. inversion H; subst. now apply Z.
  - discriminate.
Qed.

Lemma exit_code_is_zero_witness :
  snd (run (Sample.webhookOnMerge "true")
         (Sample.world (Sample.keyedEvent (Some "text") true) (Ok None))) = Exited 0 /\
  0%Z = 0%Z.
Proof.
  split; [reflexivity|].
  apply (exit_code_is_zero (Sample.webhookOnMerge "true")
           (Sample.world (Sample.keyedEvent (Some "text") true) (Ok None)) 0).
  reflexivity.
Defined.

(** ** The shape of a resolved key *)

Section Runs.

Variable inp : list ascii.

Lemma state_eta (x : State) : mkState (endIndex x) (captures x) = x.
Proof. destruct x; reflexivity. Qed.

Lemma spanOf_zero (P : ascii -> bool) (a : nat) : spanOf inp P a 0.
Proof. intros j Hj. lia. Qed.

Lemma spanOf_cons (P : ascii -> bool) (a n : nat) :
  charAt inp P a -> spanOf inp P (S a) n -> spanOf inp P a (S n).
Proof.
  intros Ha Hs j Hj. destruct (Nat.eq_dec j a) as [->|Hne]; [exact Ha|].
  apply Hs. lia.
Qed.

Lemma spanOf_head (P : ascii -> bool) (a n : nat) :
  spanOf inp P a (S n) -> charAt inp P a /\ spanOf inp P (S a) n.
Proof.
  intros H. split; [apply H; lia | intros j Hj; apply H; lia].
Qed.

(** A star over one class consumes a run of the class and goes on. *)
Lemma star_class_sound (neg : bool) (rs : list (ascii * ascii)) :
  forall (x : State) (k : State -> option State) (z : State),
    matcher (Star (Cls neg rs)) inp x k = Some z ->
    exists n, spanOf inp (inClass neg rs) (endIndex x) n /\
              k (mkState (endIndex x + n) (captures x)) = Some z.
Proof.
  intros x k z. cbn [matcher].
  generalize (S (List.length inp) - endIndex x)%nat as fuel.
  intros fuel. revert x. induction fuel as [|fuel IH]; intros x H; cbn beta iota in H.
  - exists 0%nat. split; [apply spanOf_zero|]. now rewrite Nat.add_0_r, state_eta.
  - apply orElse_some in H. destruct H as [H|H].
    + apply step_some in H. destruct H as (c & Hc & Pc & _ & H).
      cbn [endIndex] in H.
      replace (endIndex x <? S (endIndex x))%nat with true in H
        by (symmetry; apply Nat.ltb_lt; lia).
      apply IH in H. destruct H as (n & Hs & H). cbn [endIndex captures] in *.
      exists (S n). split.
      * apply spanOf_cons; [exists c; auto | exact Hs].
      * now rewrite Nat.add_succ_r.
    + exists 0%nat. split; [apply spanOf_zero|]. now rewrite Nat.add_0_r, state_eta.
Qed.

(** When the continuation accepts after a run of the class, the star
    matches. *)
Lemma star_class_complete (neg : bool) (rs : list (ascii * ascii)) :
  forall (n : nat) (x : State) (k : State -> option State),
    spanOf inp (inClass neg rs) (endIndex x) n ->
    k (mkState (endIndex x + n) (captures x)) <> None ->
    matcher (Star (Cls neg rs)) inp x k <> None.
Proof.
  intros n x k Hs Hk. cbn [matcher].
  assert (Hfuel : (n <= S (List.length inp) - endIndex x)%nat).
  { destruct n as [|n]; [lia|].
    destruct (Hs (endIndex x + n)%nat ltac:(lia)) as (c & Hc & _).
    assert (endIndex x + n < List.length inp)%nat by (apply nth_error_Some; congruence).
    lia. }
  revert Hfuel. generalize (S (List.length inp) - endIndex x)%nat as fuel.
  intros fuel. revert n x Hs Hk.
  induction fuel as [|fuel IH]; intros n x Hs Hk Hfuel; cbn beta iota.
  - assert (n = 0)%nat by lia. subst n. now rewrite Nat.add_0_r, state_eta in Hk.
  - destruct n as [|n].
    + rewrite Nat.add_0_r, state_eta in Hk.
      destruct (step inp (inClass neg rs) x _); [discriminate | exact Hk].
    + apply spanOf_head in Hs. destruct Hs as [(c & Hc & Pc) Hs].
      unfold step. rewrite Hc, Pc. cbn [endIndex].
      replace (endIndex x <? S (endIndex x))%nat with true
        by (symmetry; apply Nat.ltb_lt; lia).
      assert (Hn : (fix loop (fuel0 : nat) (x0 : State) {struct fuel0} : option State :=
                match fuel0 with
                | 0%nat => k x0
                | S fuel' =>
                    orElse
                      (step inp (inClass neg rs) x0
                         (fun y => if (endIndex x0 <? endIndex y)%nat
                                   then loop fuel' y else None))
                      (k x0)
                end) fuel (mkState (S (endIndex x)) (captures x)) <> None).
      { apply (IH n); cbn [endIndex captures]; [exact Hs | | lia].
        now rewrite Nat.add_succ_r in Hk. }
      destruct ((fix loop (fuel0 : nat) (x0 : State) {struct fuel0} : option State := _)
                  fuel (mkState (S (endIndex x)) (captures x)));
        [discriminate | contradiction].
Qed.

End Runs.

Section KeyPattern.

Variable inp : list ascii.

Lemma step_charAt (P : ascii -> bool) (x : State) (k : State -> option State) :
  charAt inp P (endIndex x) ->
  step inp P x k = k (mkState (S (endIndex x)) (captures x)).
Proof. intros (c & Hc & Pc). unfold step. now rewrite Hc, Pc. Qed.

(** What a match of the pattern at [p] looks like. *)
Lemma jiraTicketFormat_sound (p : nat) (y : State) :
  matcher jiraTicketFormat inp (mkState p []) Some = Some y ->
  exists n1 n2,
    keyAt inp p n1 n2 /\
    y = mkState (p + 5 + n1 + n2) [(1%nat, ((p + 2)%nat, (p + 5 + n1 + n2)%nat))].
Proof.
  intros H. unfold jiraTicketFormat, Plus, digit in H. cbn [matcher] in H.
  apply step_some in H. destruct H as (c1 & H1 & P1 & _ & H).
  apply step_some in H. destruct H as (c2 & H2 & P2 & _ & H).
  apply step_some in H. destruct H as (c3 & H3 & P3 & _ & H).
  cbn [endIndex captures] in *.
  match type of H with
  | _ ?fuel ?x = Some y =>
      change (matcher (Star (Cls false letters)) inp x
                (fun y0 =>
                   matcher (Seq (Chr "-"%char)
                              (Seq (Cls false [("0"%char, "9"%char)])
                                 (Star (Cls false [("0"%char, "9"%char)])))) inp y0
                     (fun y1 => Some (mkState (endIndex y1)
                                    ((1%nat, (S (S p), endIndex y1)) :: captures y1))))
              = Some y) in H
  end.
  apply star_class_sound in H. destruct H as (n1 & S1 & H).
  cbn [matcher endIndex captures] in H.
  apply step_some in H. destruct H as (c4 & H4 & P4 & _ & H).
  apply step_some in H. destruct H as (c5 & H5 & P5 & _ & H).
  cbn [endIndex captures] in *.
  match type of H with
  | _ ?fuel ?x = Some y =>
      change (matcher (Star (Cls false [("0"%char, "9"%char)])) inp x
                (fun y1 => Some (mkState (endIndex y1)
                               ((1%nat, (S (S p), endIndex y1)) :: captures y1)))
              = Some y) in H
  end.
  apply star_class_sound in H. destruct H as (n2 & S2 & H).
  cbn [endIndex captures] in H. inversion H; subst y; clear H.
  exists n1, n2. split.
  - unfold keyAt. repeat split.
    + exists c1. auto.
    + exists c2. replace (p + 1)%nat with (S p) by lia. auto.
    + replace (p + 2)%nat with (S (S p)) by lia.
      apply spanOf_cons; [exists c3; auto | exact S1].
    + exists c4. replace (p + 3 + n1)%nat with (S (S (S p)) + n1)%nat by lia. auto.
    + replace (p + 4 + n1)%nat with (S (S (S (S p)) + n1)) by lia.
      apply spanOf_cons; [exists c5; auto | exact S2].
  - f_equal; [lia|]. repeat f_equal; lia.
Qed.

(** Where the pattern can match, the matcher finds a match. *)
Lemma jiraTicketFormat_complete (p n1 n2 : nat) :
  keyAt inp p n1 n2 ->
  matcher jiraTicketFormat inp (mkState p []) Some <> None.
Proof.
  intros (H1 & H2 & S1 & H4 & S2).
  apply spanOf_head in S1. destruct S1 as [H3 S1].
  apply spanOf_head in S2. destruct S2 as [H5 S2].
  unfold jiraTicketFormat, Plus, digit. cbn [matcher].
  rewrite step_charAt by exact H1. cbn [endIndex captures].
  rewrite step_charAt by (cbn [endIndex]; replace (S p) with (p + 1)%nat by lia; exact H2).
  cbn [endIndex captures].
  rewrite step_charAt by (cbn [endIndex]; replace (S (S p)) with (p + 2)%nat by lia; exact H3).
  cbn [endIndex captures].
  match goal with
  | |- _ ?fuel ?x <> None =>
      change (matcher (Star (Cls false letters)) inp x
                (fun y0 =>
                   matcher (Seq (Chr "-"%char)
                              (Seq (Cls false [("0"%char, "9"%char)])
                                 (Star (Cls false [("0"%char, "9"%char)])))) inp y0
                     (fun y1 => Some (mkState (endIndex y1)
                                    ((1%nat, (S (S p), endIndex y1)) :: captures y1))))
              <> None)
  end.
  apply (star_class_complete inp false letters n1).
  - cbn [endIndex]. replace (S (S (S p))) with (S (p + 2)) by lia. exact S1.
  - cbn [matcher endIndex captures].
    rewrite step_charAt
      by (cbn [endIndex]; replace (S (S (S p)) + n1)%nat with (p + 3 + n1)%nat by lia;
          exact H4).
    cbn [endIndex captures].
    rewrite step_charAt
      by (cbn [endIndex]; replace (S (S (S (S p)) + n1))%nat with (p + 4 + n1)%nat by lia;
          exact H5).
    cbn [endIndex captures].
    match goal with
    | |- _ ?fuel ?x <> None =>
        change (matcher (Star (Cls false [("0"%char, "9"%char)])) inp x
                  (fun y1 => Some (mkState (endIndex y1)
                                 ((1%nat, (S (S p), endIndex y1)) :: captures y1)))
                <> None)
    end.
    apply (star_class_complete inp false [("0"%char, "9"%char)] n2).
    + cbn [endIndex].
      replace (S (S (S (S (S p)) + n1))) with (S (p + 4 + n1)) by lia. exact S2.
    + discriminate.
Qed.

(** The scan reaches every start index up to its fuel. *)
Lemma scan_complete (r : regex) :
  forall (fuel i j : nat),
    (i <= j <= i + fuel)%nat ->
    matcher r inp (mkState j []) Some <> None ->
    scan r inp fuel i <> None.
Proof.
  induction fuel as [|fuel IH]; intros i j Hj Hm; cbn [scan].
  - assert (j = i) by lia. subst j.
    destruct (matcher r inp (mkState i []) Some); [discriminate | contradiction].
  - destruct (matcher r inp (mkState i []) Some) eqn:E; [discriminate|].
    apply (IH (S i) j); [|exact Hm].
    destruct (Nat.eq_dec i j) as [->|]; [congruence | lia].
Qed.

End KeyPattern.

Section Pieces.

Lemma piece_nil (a n : nat) : piece [] a n = [].
Proof. unfold piece. destruct a, n; reflexivity. Qed.

Lemma substring_piece (s : string) :
  forall a n, list_ascii_of_string (substring a n s) = piece (list_ascii_of_string s) a n.
Proof.
  induction s as [|c s IH]; intros a n.
  - rewrite substring_empty. cbn. now rewrite piece_nil.
  - destruct a as [|a]; [destruct n as [|n]|]; cbn.
    + reflexivity.
    + rewrite IH. reflexivity.
    + rewrite IH. reflexivity.
Qed.

Lemma piece_cons (l : list ascii) :
  forall a n c, nth_error l a = Some c -> piece l a (S n) = c :: piece l (S a) n.
Proof.
  induction l as [|d l IH]; intros a n c H.
  - destruct a; discriminate.
  - destruct a as [|a]; cbn in H.
    + inversion H; subst. reflexivity.
    + apply (IH a n c) in H. exact H.
Qed.

Lemma piece_split (l : list ascii) (a n m : nat) :
  piece l a (n + m) = (piece l a n ++ piece l (a + n) m)%list.
Proof.
  unfold piece. rewrite (Nat.add_comm a n), <- skipn_skipn.
  generalize (skipn a l) as k. clear. intros k. revert k.
  induction n as [|n IH]; intros k; cbn; [reflexivity|].
  destruct k as [|c k]; cbn.
  - destruct m; reflexivity.
  - now rewrite IH.
Qed.

Lemma piece_span (l : list ascii) (P : ascii -> bool) :
  forall n a, spanOf l P a n ->
    List.length (piece l a n) = n /\ forallb P (piece l a n) = true.
Proof.
  induction n as [|n IH]; intros a H.
  - split; reflexivity.
  - apply spanOf_head in H. destruct H as [(c & Hc & Pc) H].
    rewrite (piece_cons l a n c Hc). destruct (IH (S a) H) as [L F].
    cbn. rewrite L, Pc, F. split; reflexivity.
Qed.

Lemma list_ascii_app (a b : string) :
  list_ascii_of_string (a ++ b) = (list_ascii_of_string a ++ list_ascii_of_string b)%list.
Proof. induction a as [|c a IH]; cbn; [reflexivity | now rewrite IH]. Qed.

Lemma charAt_shift (pre l : list ascii) (P : ascii -> bool) (j : nat) :
  charAt l P j -> charAt (pre ++ l) P (List.length pre + j).
Proof.
  intros (c & Hc & Pc). exists c. split; [|exact Pc].
  rewrite nth_error_app2 by lia. now replace (List.length pre + j - List.length pre)%nat with j by lia.
Qed.

Lemma spanOf_shift (pre l : list ascii) (P : ascii -> bool) (a n : nat) :
  spanOf l P a n -> spanOf (pre ++ l) P (List.length pre + a) n.
Proof.
  intros H j Hj.
  replace j with (List.length pre + (j - List.length pre))%nat by lia.
  apply charAt_shift. apply H. lia.
Qed.

Lemma spanOf_prefix (l rest : list ascii) (P : ascii -> bool) :
  forallb P l = true -> spanOf (l ++ rest) P 0 (List.length l).
Proof.
  induction l as [|c l IH]; intros H; [apply spanOf_zero|].
  cbn in H. apply andb_true_iff in H. destruct H as [Pc H].
  apply spanOf_cons; [exists c; auto|].
  apply (spanOf_shift [c] (l ++ rest) P 0 (List.length l)). now apply IH.
Qed.

End Pieces.

(** A key found by the pattern of line 30 is one or more letters of either
    case, a hyphen, and one or more digits. *)
Lemma found_key_shape (s : string) (l : list value) :
  found s = Some l ->
  exists ls ds,
    l = [Some (string_of_list_ascii (ls ++ "-"%char :: ds))] /\
    ls <> [] /\ ds <> [] /\
    forallb isLetter ls = true /\ forallb isDigit ds = true.
Proof.
  unfold found, match_.
  destruct (exec jiraTicketFormat s) as [[i y]|] eqn:E; [|discriminate].
  cbn [option_map tl]. intros H. inversion H; subst l; clear H.
  unfold exec in E. apply scan_some in E. destruct E as [_ E].
  apply jiraTicketFormat_sound in E.
  destruct E as (n1 & n2 & (_ & _ & S1 & (c & Hc & Pc) & S2) & ->).
  set (inp := list_ascii_of_string s) in *.
  exists (piece inp (i + 2) (S n1)), (piece inp (i + 4 + n1) (S n2)).
  destruct (piece_span inp isLetter _ _ S1) as [L1 F1].
  destruct (piece_span inp isDigit _ _ S2) as [L2 F2].
  split; [|repeat split; auto].
  - replace (groups jiraTicketFormat) with [1%nat] by reflexivity.
    unfold captured. cbn [map captures lookup Nat.eqb endIndex].
    do 2 f_equal.
    rewrite <- (string_of_list_ascii_of_string (substring _ _ s)). f_equal.
    rewrite substring_piece. fold inp.
    replace (i + 5 + n1 + n2 - (i + 2))%nat with (S n1 + (1 + S n2))%nat by lia.
    rewrite !piece_split. f_equal.
    replace (i + 2 + S n1)%nat with (i + 3 + n1)%nat by lia.
    rewrite (piece_cons inp _ 0 c Hc).
    apply Ascii.eqb_eq in Pc. subst c.
    replace (i + 3 + n1 + 1)%nat with (i + 4 + n1)%nat by lia. reflexivity.
  - intros E. rewrite E in L1. discriminate.
  - intros E. rewrite E in L2. discriminate.
Qed.

(** X18.  Every key that lines 58-67 resolve from the title or the branch is
    one or more letters of either case, a hyphen, and one or more digits. *)
Theorem resolved_key_shape (t branch k : string) :
  KeyResolver t branch = Some k ->
  exists ls ds,
    k = string_of_list_ascii (ls ++ "-"%char :: ds) /\
    ls <> [] /\ ds <> [] /\
    forallb isLetter ls = true /\ forallb isDigit ds = true.
Proof.
  intros H.
  assert (Hl : exists s l, found s = Some l /\ hd None l = Some k).
  { destruct (found t) as [l|] eqn:Ft.
    - destruct (KeyResolver_title t branch l Ft) as [E _]. rewrite E in H. eauto.
    - rewrite (KeyResolver_branch _ _ Ft) in H.
      destruct (found branch) as [l|] eqn:Fb; [|discriminate]. cbn in H. eauto. }
  destruct Hl as (s & l & Hf & Hh).
  destruct (found_key_shape s l Hf) as (ls & ds & -> & Hs).
  cbn in Hh. inversion Hh; subst k. exists ls, ds. split; [reflexivity | exact Hs].
Qed.

Lemma resolved_key_shape_witness :
  exists ls ds,
    "b-99" = string_of_list_ascii (ls ++ "-"%char :: ds) /\
    ls <> [] /\ ds <> [] /\
    forallb isLetter ls = true /\ forallb isDigit ds = true.
Proof.
  apply (resolved_key_shape "Fix login bug" "feature/ab-99-fix" "b-99"). reflexivity.
Defined.

(** ** The title the tail writes *)

(** X19.  The title "TITLE [KEY]" that lines 102 and 212 write, for a key of
    letters, a hyphen and digits, is a title in which the pattern of line 30
    finds a key; so when it is the title of the next run, the update of the
    default mode carries no title. *)
Theorem composed_title_has_key (T : string) (ls ds : list ascii) :
  ls <> [] -> ds <> [] ->
  forallb isLetter ls = true ->
  forallb isDigit ds = true ->
  isFound (found (TitleComposer T (Some (string_of_list_ascii (ls ++ "-"%char :: ds)))))
    = true /\
  (forall i p latest,
     isCreateIssue i = false ->
     freshTitle latest p
       = TitleComposer T (Some (string_of_list_ascii (ls ++ "-"%char :: ds))) ->
     syncTitle i p latest = None).
Proof.
  intros Nl Nd Fl Fd.
  assert (Hf : isFound (found (TitleComposer T
                 (Some (string_of_list_ascii (ls ++ "-"%char :: ds))))) = true).
  { destruct ls as [|l0 ls]; [congruence|]. destruct ds as [|d0 ds]; [congruence|].
    set (k := string_of_list_ascii ((l0 :: ls) ++ "-"%char :: d0 :: ds)).
    unfold TitleComposer, showUndefined, found, match_.
    set (s := T ++ " [" ++ k ++ "]").
    assert (Hs : list_ascii_of_string s =
                 (list_ascii_of_string T ++ [" "%char; "["%char] ++ (l0 :: ls)
                    ++ ["-"%char] ++ (d0 :: ds) ++ ["]"%char])%list).
    { unfold s, k. rewrite !list_ascii_app, list_ascii_of_string_of_list_ascii.
      cbn. now rewrite <- !app_assoc. }
    assert (Hm : matcher jiraTicketFormat (list_ascii_of_string s)
                   (mkState (List.length (list_ascii_of_string T)) []) Some <> None).
    { apply (jiraTicketFormat_complete _ _ (List.length ls) (List.length ds)).
      rewrite Hs. set (p := List.length (list_ascii_of_string T)).
      repeat split.
      - replace p with (p + 0)%nat by lia. apply charAt_shift.
        exists " "%char. split; reflexivity.
      - apply charAt_shift. exists "["%char. split; reflexivity.
      - apply spanOf_shift. apply (spanOf_shift [" "%char; "["%char] _ isLetter 0).
        apply (spanOf_prefix (l0 :: ls)). exact Fl.
      - replace (p + 3 + List.length ls)%nat
          with (p + (2 + (S (List.length ls) + 0)))%nat by lia.
        apply charAt_shift. apply (charAt_shift [" "%char; "["%char]).
        apply (charAt_shift (l0 :: ls)). exists "-"%char. split; reflexivity.
      - replace (p + 4 + List.length ls)%nat
          with (p + (2 + (S (List.length ls) + (1 + 0))))%nat by lia.
        apply spanOf_shift. apply (spanOf_shift [" "%char; "["%char]).
        apply (spanOf_shift (l0 :: ls)). apply (spanOf_shift ["-"%char] _ isDigit 0).
        apply (spanOf_prefix (d0 :: ds)). exact Fd. }
    assert (He : exec jiraTicketFormat s <> None).
    { unfold exec. apply (scan_complete _ _ _ _ (List.length (list_ascii_of_string T)));
        [|exact Hm].
      split; [lia|]. rewrite <- (list_ascii_length s), Hs, length_app. lia. }
    destruct (exec jiraTicketFormat s) as [[i y]|]; [reflexivity | contradiction]. }
  split; [exact Hf|].
  intros i p latest Hc E. unfold syncTitle. rewrite Hc, E, Hf. reflexivity.
Qed.

Lemma composed_title_has_key_witness :
  isFound (found (TitleComposer "login"
                    (Some (string_of_list_ascii
                             (list_ascii_of_string "AB" ++ "-"%char
                                :: list_ascii_of_string "100")))))
    = true /\
  (forall i p latest,
     isCreateIssue i = false ->
     freshTitle latest p
       = TitleComposer "login"
           (Some (string_of_list_ascii
                    (list_ascii_of_string "AB" ++ "-"%char :: list_ascii_of_string "100"))) ->
     syncTitle i p latest = None).
Proof.
  apply (composed_title_has_key "login" (list_ascii_of_string "AB")
           (list_ascii_of_string "100"));
    [discriminate | discriminate | reflexivity | reflexivity].
Defined.
